(** * Page-type attribute assignment (saleor/graphql/page/mutations/attributes.py)

    A shallow embedding of the two mutations [PageAttributeAssign] and
    [PageAttributeUnassign].  The relational store is an explicit value that
    is threaded through the mutations; exceptions are an explicit outcome.
    The framework functions the mutations call but do not define (identifier
    encoding and decoding, node lookup) are the fields of a class. *)

From Stdlib Require Import ZArith Ascii.
From stdpp Require Import gmap strings list fin_maps pretty.

Local Open Scope Z_scope.
Local Open Scope string_scope.

(** ** Data model *)

(** Modelled from the spec: the declaration of [AttributeType] (imported from
    [saleor.product]) is missing; the spec describes the [kind] classifier of
    an attribute as one of several domain categories, the page-type-attribute
    category and others such as the product-attribute one. *)
Module AttributeType.
Inductive t := PRODUCT_TYPE | PAGE_TYPE.

#[global] Instance eq_dec : EqDecision t.
Proof. solve_decision. Defined.
End AttributeType.

(** Modelled from the spec: the declaration of [PageErrorCode] (imported from
    [saleor.page.error_codes]) is missing; the spec names the two kinds that
    the validation produces and a not-found kind raised by the node lookup.
    A value of this type stands for the [.value] of the enumeration member. *)
Module PageErrorCode.
Inductive t := INVALID | ATTRIBUTE_ALREADY_ASSIGNED | NOT_FOUND.

#[global] Instance eq_dec : EqDecision t.
Proof. solve_decision. Defined.
End PageErrorCode.

(** A row of [models.Attribute]: the fields the mutations read. *)
Module models.
Record Attribute := { pk : Z; type : AttributeType.t }.

#[global] Instance Attribute_eq_dec : EqDecision Attribute.
Proof. solve_decision. Defined.
End models.

(** An instance of [page_models.PageType]. *)
Module page_models.
Record PageType := { pk : Z }.

#[global] Instance PageType_eq_dec : EqDecision PageType.
Proof. solve_decision. Defined.
End page_models.

(** The part of the database the mutations touch: the attribute table and the
    page type table, in the order in which a query returns their rows, and the
    table behind the many-to-many field [PageType.page_attributes], a set of
    (page type pk, attribute pk) pairs. *)
Record Store := {
  attribute_rows : list models.Attribute;
  page_type_rows : list page_models.PageType;
  page_attribute_links : gset (Z * Z);
}.

(** [django.core.exceptions.ValidationError(message, code=..., params=...)]. *)
Record ValidationError := {
  message : string;
  code : PageErrorCode.t;
  params : gmap string (list string);
}.

#[global] Instance ValidationError_eq_dec : EqDecision ValidationError.
Proof. solve_decision. Defined.

(** What a call can raise: [ValidationError(errors)] built from a dictionary
    of error lists, a [GraphQLError], or the [IntegrityError] of the
    database. *)
Inductive Exception :=
  | ValidationErrorDict (error_dict : gmap string (list ValidationError))
  | GraphQLError (msg : string)
  | IntegrityError.

Inductive Outcome (A : Type) :=
  | Return (a : A)
  | Raise (e : Exception).
Arguments Return {A} a.
Arguments Raise {A} e.

(** ** Framework collaborators

    [graphene.Node.to_global_id], [BaseMutation.get_node_or_error] (with
    [only_type=PageType]: a lookup in the page type table) and
    [resolve_global_ids_to_primary_keys] (with the [Attribute] type; it
    returns the node type and the primary keys). *)
Class Collaborators := {
  to_global_id : string → Z → string;
  get_node_or_error :
    list page_models.PageType → string → Outcome page_models.PageType;
  resolve_global_ids_to_primary_keys :
    list string → Outcome (option string * list Z);
}.

(** ** Query sets and the related manager *)

(** [qs.filter(pk__in=pks)] *)
Definition filter_pk_in (pks : list Z) (qs : list models.Attribute)
  : list models.Attribute :=
  filter (λ attr, models.pk attr ∈ pks) qs.

(** [qs.exclude(type=t)] *)
Definition exclude_type (t : AttributeType.t) (qs : list models.Attribute)
  : list models.Attribute :=
  filter (λ attr, models.type attr ≠ t) qs.

(** Modelled from the spec: the manager method
    [Attribute.objects.get_assigned_page_type_attributes] is missing; the spec
    describes its result as the Attribute entities already present in the
    target page type's assignment set. *)
Definition get_assigned_page_type_attributes (db : Store) (page_type_pk : Z)
  : list models.Attribute :=
  filter (λ attr, (page_type_pk, models.pk attr) ∈ page_attribute_links db)
         (attribute_rows db).

(** The pairs [page_type.page_attributes.add] and [.remove]
    range over. *)
Definition links_of (page_type : page_models.PageType) (pks : list Z)
  : gset (Z * Z) :=
  list_to_set ((λ attr_pk, (page_models.pk page_type, attr_pk)) <$> pks).

(** The store with a link from the page type to every key: a link that is
    there already is not inserted again. *)
Definition insert_links (page_type : page_models.PageType)
    (pks : list Z) (db : Store) : Store :=
  {| attribute_rows := attribute_rows db;
     page_type_rows := page_type_rows db;
     page_attribute_links := page_attribute_links db ∪ links_of page_type pks |}.

(** [page_type.page_attributes.add]: the links of the keys are inserted.  The
    manager does not look the keys up; the attribute column of the link table
    is a foreign key, so a key without a row in the attribute table makes the
    insertion fail with [IntegrityError], and then nothing is linked. *)
Definition page_attributes_add (page_type : page_models.PageType)
    (pks : list Z) (db : Store) : Outcome unit * Store :=
  if bool_decide
       (Forall (λ attr_pk, attr_pk ∈ models.pk <$> attribute_rows db) pks)
  then (Return tt, insert_links page_type pks db)
  else (Raise IntegrityError, db).

(** [page_type.page_attributes.remove]: the links of the keys are deleted;
    a key that is not linked is skipped. *)
Definition page_attributes_remove (page_type : page_models.PageType)
    (pks : list Z) (db : Store) : Store :=
  {| attribute_rows := attribute_rows db;
     page_type_rows := page_type_rows db;
     page_attribute_links := page_attribute_links db ∖ links_of page_type pks |}.

(** The assignment relation of one page type: the primary keys linked to it. *)
Definition page_attributes (page_type : page_models.PageType) (db : Store)
  : gset Z :=
  set_map snd
    (filter (λ link, link.1 = page_models.pk page_type)
            (page_attribute_links db)).

(** [errors[key].append(error)] on a [defaultdict(list)]. *)
Definition append_error (key : string) (error : ValidationError)
    (errors : gmap string (list ValidationError))
  : gmap string (list ValidationError) :=
  <[key := (default [] (errors !! key) ++ [error])%list]> errors.

(** ** The mutations *)

Module PageAttributeAssign.
Section with_collaborators.
Context `{Collaborators}.

Definition invalid_attributes (db : Store) (attr_pks : list Z)
  : list models.Attribute :=
  exclude_type AttributeType.PAGE_TYPE
    (filter_pk_in attr_pks (attribute_rows db)).

Definition assigned_attrs (db : Store) (page_type : page_models.PageType)
    (attr_pks : list Z) : list models.Attribute :=
  filter_pk_in attr_pks
    (get_assigned_page_type_attributes db (page_models.pk page_type)).

Definition global_ids (attrs : list models.Attribute) : list string :=
  (λ attr, to_global_id "Attribute" (models.pk attr)) <$> attrs.

Definition invalid_error (ids : list string) : ValidationError :=
  {| message := "Only page attributes can be assigned.";
     code := PageErrorCode.INVALID;
     params := {[ "attributes" := ids ]} |}.

Definition assigned_error (ids : list string) : ValidationError :=
  {| message :=
       "Some of the attributes have been already assigned to this page type.";
     code := PageErrorCode.ATTRIBUTE_ALREADY_ASSIGNED;
     params := {[ "attributes" := ids ]} |}.

Definition clean_attributes (db : Store)
    (errors : gmap string (list ValidationError))
    (page_type : page_models.PageType) (attr_pks : list Z)
  : gmap string (list ValidationError) :=
  let invalid_attributes := invalid_attributes db attr_pks in
  let errors :=
    if bool_decide (invalid_attributes ≠ []) then
      let invalid_attributes_ids := global_ids invalid_attributes in
      append_error "attribute_ids" (invalid_error invalid_attributes_ids)
                   errors
    else errors in
  let assigned_attrs := assigned_attrs db page_type attr_pks in
  if bool_decide (assigned_attrs ≠ []) then
    let assigned_attributes_ids := global_ids assigned_attrs in
    append_error "attribute_ids" (assigned_error assigned_attributes_ids)
                 errors
  else errors.

Definition perform_mutation (db : Store) (page_type_id : string)
    (attribute_ids : list string) : Outcome page_models.PageType * Store :=
  let errors : gmap string (list ValidationError) := ∅ in
  match get_node_or_error (page_type_rows db) page_type_id with
  | Raise e => (Raise e, db)
  | Return page_type =>
    match resolve_global_ids_to_primary_keys attribute_ids with
    | Raise e => (Raise e, db)
    | Return (_, attr_pks) =>
      let errors := clean_attributes db errors page_type attr_pks in
      if bool_decide (errors ≠ ∅) then (Raise (ValidationErrorDict errors), db)
      else
        match page_attributes_add page_type attr_pks db with
        | (Raise e, db') => (Raise e, db')
        | (Return _, db') => (Return page_type, db')
        end
    end
  end.
End with_collaborators.
End PageAttributeAssign.

Module PageAttributeUnassign.
Section with_collaborators.
Context `{Collaborators}.

Definition perform_mutation (db : Store) (page_type_id : string)
    (attribute_ids : list string) : Outcome page_models.PageType * Store :=
  match get_node_or_error (page_type_rows db) page_type_id with
  | Raise e => (Raise e, db)
  | Return page_type =>
    match resolve_global_ids_to_primary_keys attribute_ids with
    | Raise e => (Raise e, db)
    | Return (_, attr_pks) =>
      (Return page_type, page_attributes_remove page_type attr_pks db)
    end
  end.
End with_collaborators.
End PageAttributeUnassign.

(** ** A reference implementation of the collaborators

    The relay encoding of global identifiers (base64 of ["Type:pk"]), a node
    lookup in the page type table and a decoder, used to run the mutations on
    concrete stores. *)
Module relay.
Definition alphabet : list ascii :=
  String.list_ascii_of_string
    "ABCDEFGHIJKLMNOPQRSTUVWXYZabcdefghijklmnopqrstuvwxyz0123456789+/".

Definition sextet (n : N) : ascii := nth (N.to_nat n) alphabet "="%char.

Fixpoint b64encode (bytes : list N) : list ascii :=
  match bytes with
  | [] => []
  | [a] => [sextet (a / 4); sextet (a mod 4 * 16); "="; "="]%N%char
  | [a; b] =>
      [sextet (a / 4); sextet (a mod 4 * 16 + b / 16);
       sextet (b mod 16 * 4); "="%char]%N
  | a :: b :: c :: rest =>
      ([sextet (a / 4); sextet (a mod 4 * 16 + b / 16);
        sextet (b mod 16 * 4 + c / 64); sextet (c mod 64)]%N
       ++ b64encode rest)%list
  end.

Definition base64 (s : string) : string :=
  String.string_of_list_ascii
    (b64encode (map Ascii.N_of_ascii (String.list_ascii_of_string s))).

Definition to_global_id (type : string) (id : Z) : string :=
  base64 (type ++ ":" ++ pretty id).

(** Decoding by search among the primary keys below [bound]. *)
Definition from_global_id (type : string) (bound : nat) (global_id : string)
  : option Z :=
  find (λ id, bool_decide (to_global_id type id = global_id))
       (seqZ 0 (Z.of_nat bound)).

Definition not_found (global_id : string) : ValidationError :=
  {| message := "Couldn't resolve to a node: " ++ global_id;
     code := PageErrorCode.NOT_FOUND;
     params := ∅ |}.

Definition get_node_or_error (page_types : list page_models.PageType)
    (global_id : string) : Outcome page_models.PageType :=
  match
    find (λ page_type,
            bool_decide
              (to_global_id "PageType" (page_models.pk page_type) = global_id))
         page_types
  with
  | Some page_type => Return page_type
  | None => Raise (ValidationErrorDict {[ "page_type_id" := [not_found global_id] ]})
  end.

Definition resolve_global_ids_to_primary_keys (ids : list string)
  : Outcome (option string * list Z) :=
  match mapM (from_global_id "Attribute" 64) ids with
  | Some pks => Return (if ids is [] then None else Some "Attribute", pks)
  | None => Raise (GraphQLError "Could not resolve to a node with the global id list.")
  end.

Definition collaborators : Collaborators :=
  Build_Collaborators
    to_global_id get_node_or_error resolve_global_ids_to_primary_keys.
End relay.

(** ** Stores used in the examples

    Page type [P] (pk 10) has attribute [A1]; page type [Q] (pk 20) has [A2].
    [A1], [A2] and [A9] are page attributes, [A3] is a product attribute. *)
Module fixtures.
Definition P : page_models.PageType := {| page_models.pk := 10 |}.
Definition Q : page_models.PageType := {| page_models.pk := 20 |}.

Definition A1 : models.Attribute :=
  {| models.pk := 1; models.type := AttributeType.PAGE_TYPE |}.
Definition A2 : models.Attribute :=
  {| models.pk := 2; models.type := AttributeType.PAGE_TYPE |}.
Definition A3 : models.Attribute :=
  {| models.pk := 3; models.type := AttributeType.PRODUCT_TYPE |}.
Definition A9 : models.Attribute :=
  {| models.pk := 9; models.type := AttributeType.PAGE_TYPE |}.

Definition db : Store :=
  {| attribute_rows := [A1; A2; A3; A9];
     page_type_rows := [P; Q];
     page_attribute_links := {[ (10, 1); (20, 2) ]} |}.

(** Inconsistent data: the product attribute [A3] is linked to [P]. *)
Definition inconsistent_db : Store :=
  {| attribute_rows := [A1; A2; A3; A9];
     page_type_rows := [P; Q];
     page_attribute_links := {[ (10, 1); (10, 3); (20, 2) ]} |}.

Definition P_id : string := relay.to_global_id "PageType" 10.
Definition attribute_id (pk : Z) : string := relay.to_global_id "Attribute" pk.
End fixtures.

(** ** Invariants of the store *)

(** Every link of the assignment table points to page attributes only: an
    attribute row whose key is linked has the page type kind. *)
Definition kind_invariant (db : Store) : Prop :=
  set_Forall
    (λ link,
       Forall (λ attr, models.pk attr = link.2 →
                       models.type attr = AttributeType.PAGE_TYPE)
              (attribute_rows db))
    (page_attribute_links db).

(** Every link of the assignment table points to a row of the attribute
    table. *)
Definition referential_integrity (db : Store) : Prop :=
  set_Forall (λ link, link.2 ∈ (models.pk <$> attribute_rows db))
             (page_attribute_links db).

(** ** Properties of the related manager and of the validation *)

Section manager_facts.
Implicit Types (db : Store) (page_type : page_models.PageType).
Implicit Types (pks : list Z) (attr : models.Attribute).

Lemma filter_ext_in {A} (P1 P2 : A → Prop)
    `{!∀ x, Decision (P1 x), !∀ x, Decision (P2 x)} (l : list A) :
  (∀ x, x ∈ l → P1 x ↔ P2 x) → filter P1 l = filter P2 l.
Proof.
  induction l as [|x l IH]; intros Hiff; [done|].
  rewrite !filter_cons.
  rewrite IH by (intros y Hy; apply Hiff; by right).
  apply decide_ext, Hiff. left.
Qed.

Lemma elem_of_links_of page_type pks (p a : Z) :
  (p, a) ∈ links_of page_type pks ↔ p = page_models.pk page_type ∧ a ∈ pks.
Proof.
  unfold links_of. rewrite elem_of_list_to_set, list_elem_of_fmap. split.
  - intros (x & [= -> ->] & Hx). done.
  - intros [-> Ha]. by exists a.
Qed.

Lemma elem_of_page_attributes page_type db (a : Z) :
  a ∈ page_attributes page_type db
  ↔ (page_models.pk page_type, a) ∈ page_attribute_links db.
Proof.
  unfold page_attributes. rewrite elem_of_map. split.
  - intros ([p a'] & -> & Hin). apply elem_of_filter in Hin as [Hp Hin].
    simpl in *. by subst.
  - intros Hin. exists (page_models.pk page_type, a). split; [done|].
    by apply elem_of_filter.
Qed.

Lemma insert_links_eq page_type pks db :
  page_attributes page_type (insert_links page_type pks db)
  = page_attributes page_type db ∪ list_to_set pks.
Proof.
  apply set_eq. intros a.
  rewrite elem_of_union, !elem_of_page_attributes, elem_of_list_to_set. simpl.
  rewrite elem_of_union, elem_of_links_of. intuition congruence.
Qed.

Lemma page_attributes_remove_eq page_type pks db :
  page_attributes page_type (page_attributes_remove page_type pks db)
  = page_attributes page_type db ∖ list_to_set pks.
Proof.
  apply set_eq. intros a.
  rewrite elem_of_difference, !elem_of_page_attributes, elem_of_list_to_set.
  simpl. rewrite elem_of_difference, elem_of_links_of. intuition congruence.
Qed.

Lemma insert_links_other page_type other pks db :
  page_models.pk other ≠ page_models.pk page_type →
  page_attributes other (insert_links page_type pks db)
  = page_attributes other db.
Proof.
  intros Hne. apply set_eq. intros a. rewrite !elem_of_page_attributes. simpl.
  rewrite elem_of_union, elem_of_links_of. intuition congruence.
Qed.

Lemma page_attributes_remove_other page_type other pks db :
  page_models.pk other ≠ page_models.pk page_type →
  page_attributes other (page_attributes_remove page_type pks db)
  = page_attributes other db.
Proof.
  intros Hne. apply set_eq. intros a. rewrite !elem_of_page_attributes. simpl.
  rewrite elem_of_difference, elem_of_links_of. intuition congruence.
Qed.

Lemma insert_links_nil page_type db :
  insert_links page_type [] db = db.
Proof.
  destruct db as [rows types links]. unfold insert_links, links_of.
  simpl. f_equal. apply union_empty_r_L.
Qed.

Lemma page_attributes_remove_absent page_type pks db :
  (∀ a, a ∈ pks → a ∉ page_attributes page_type db) →
  page_attributes_remove page_type pks db = db.
Proof.
  intros Habsent. destruct db as [rows types links].
  unfold page_attributes_remove. simpl. f_equal.
  apply set_eq. intros [p a]. rewrite elem_of_difference, elem_of_links_of.
  split; [tauto|]. intros Hin. split; [done|]. intros [-> Ha].
  apply (Habsent a Ha). by apply elem_of_page_attributes.
Qed.

Lemma elem_of_invalid_attributes db pks attr :
  attr ∈ PageAttributeAssign.invalid_attributes db pks
  ↔ attr ∈ attribute_rows db ∧ models.pk attr ∈ pks
    ∧ models.type attr ≠ AttributeType.PAGE_TYPE.
Proof.
  unfold PageAttributeAssign.invalid_attributes, exclude_type, filter_pk_in.
  rewrite !list_elem_of_filter. tauto.
Qed.

Lemma elem_of_assigned_attrs db page_type pks attr :
  attr ∈ PageAttributeAssign.assigned_attrs db page_type pks
  ↔ attr ∈ attribute_rows db ∧ models.pk attr ∈ pks
    ∧ models.pk attr ∈ page_attributes page_type db.
Proof.
  unfold PageAttributeAssign.assigned_attrs, filter_pk_in.
  unfold get_assigned_page_type_attributes.
  rewrite !list_elem_of_filter, elem_of_page_attributes. tauto.
Qed.

Lemma invalid_attributes_nil db pks :
  PageAttributeAssign.invalid_attributes db pks = []
  ↔ ∀ attr, attr ∈ attribute_rows db → models.pk attr ∈ pks →
            models.type attr = AttributeType.PAGE_TYPE.
Proof.
  split.
  - intros Hnil attr Hrow Hpk.
    destruct (decide (models.type attr = AttributeType.PAGE_TYPE)) as [|Hne];
      [done|].
    assert (attr ∈ PageAttributeAssign.invalid_attributes db pks) as Hin
      by by apply elem_of_invalid_attributes.
    rewrite Hnil in Hin. by apply not_elem_of_nil in Hin.
  - intros Hall.
    destruct (PageAttributeAssign.invalid_attributes db pks) as [|attr l] eqn:E;
      [done|].
    assert (attr ∈ PageAttributeAssign.invalid_attributes db pks) as Hin
      by (rewrite E; left).
    apply elem_of_invalid_attributes in Hin as (Hrow & Hpk & Hne).
    by specialize (Hall attr Hrow Hpk).
Qed.

Lemma assigned_attrs_nil db page_type pks :
  PageAttributeAssign.assigned_attrs db page_type pks = []
  ↔ ∀ attr, attr ∈ attribute_rows db → models.pk attr ∈ pks →
            models.pk attr ∉ page_attributes page_type db.
Proof.
  split.
  - intros Hnil attr Hrow Hpk Hlinked.
    assert (attr ∈ PageAttributeAssign.assigned_attrs db page_type pks) as Hin
      by by apply elem_of_assigned_attrs.
    rewrite Hnil in Hin. by apply not_elem_of_nil in Hin.
  - intros Hall.
    destruct (PageAttributeAssign.assigned_attrs db page_type pks)
      as [|attr l] eqn:E; [done|].
    assert (attr ∈ PageAttributeAssign.assigned_attrs db page_type pks) as Hin
      by (rewrite E; left).
    apply elem_of_assigned_attrs in Hin as (Hrow & Hpk & Hlinked).
    by specialize (Hall attr Hrow Hpk).
Qed.

Lemma append_error_non_empty key error
    (errors : gmap string (list ValidationError)) :
  append_error key error errors ≠ ∅.
Proof. unfold append_error. apply insert_non_empty. Qed.
End manager_facts.

(** ** The mutations, claim by claim *)

Section mutation_properties.
Context `{Collaborators}.
Implicit Types (db : Store) (page_type : page_models.PageType).
Implicit Types (attr_pks : list Z) (attr : models.Attribute).
Implicit Types (page_type_id : string) (attribute_ids : list string).

(** What [clean_attributes] leaves in a report that was empty, by the two
    query results. *)
Lemma clean_attributes_report db page_type attr_pks :
  PageAttributeAssign.clean_attributes db ∅ page_type attr_pks =
  let invalid := PageAttributeAssign.invalid_attributes db attr_pks in
  let assigned := PageAttributeAssign.assigned_attrs db page_type attr_pks in
  let invalid_error :=
    PageAttributeAssign.invalid_error (PageAttributeAssign.global_ids invalid) in
  let assigned_error :=
    PageAttributeAssign.assigned_error (PageAttributeAssign.global_ids assigned) in
  match invalid, assigned with
  | [], [] => ∅
  | _ :: _, [] => {[ "attribute_ids" := [invalid_error] ]}
  | [], _ :: _ => {[ "attribute_ids" := [assigned_error] ]}
  | _ :: _, _ :: _ => {[ "attribute_ids" := [invalid_error; assigned_error] ]}
  end.
Proof.
  unfold PageAttributeAssign.clean_attributes, append_error. cbv zeta.
  destruct (PageAttributeAssign.invalid_attributes db attr_pks) as [|i li];
    destruct (PageAttributeAssign.assigned_attrs db page_type attr_pks)
      as [|a la];
    repeat case_bool_decide; try done;
    rewrite ?lookup_insert_eq, ?lookup_empty; simpl;
    rewrite ?insert_insert_eq, ?insert_empty; done.
Qed.

Lemma clean_attributes_valid db page_type attr_pks :
  PageAttributeAssign.clean_attributes db ∅ page_type attr_pks = ∅
  ↔ PageAttributeAssign.invalid_attributes db attr_pks = []
    ∧ PageAttributeAssign.assigned_attrs db page_type attr_pks = [].
Proof.
  rewrite clean_attributes_report. cbv zeta.
  destruct (PageAttributeAssign.invalid_attributes db attr_pks);
    destruct (PageAttributeAssign.assigned_attrs db page_type attr_pks);
    split; try done; try (by intros [? ?]);
    intros Hempty; by apply (f_equal (λ m, m !! "attribute_ids")) in Hempty.
Qed.

(** What the mutation does after a validation that found nothing: it returns
    with the candidates linked when every key has an attribute row, and it
    raises the [IntegrityError] of [add] otherwise. *)
Lemma assign_valid db page_type_id attribute_ids page_type node_type attr_pks :
  get_node_or_error (page_type_rows db) page_type_id = Return page_type →
  resolve_global_ids_to_primary_keys attribute_ids
    = Return (node_type, attr_pks) →
  PageAttributeAssign.clean_attributes db ∅ page_type attr_pks = ∅ →
  (∀ a, a ∈ attr_pks → a ∈ models.pk <$> attribute_rows db) →
  PageAttributeAssign.perform_mutation db page_type_id attribute_ids
    = (Return page_type, insert_links page_type attr_pks db).
Proof.
  intros Hnode Hpks Hvalid Hrows. unfold PageAttributeAssign.perform_mutation.
  rewrite Hnode, Hpks, Hvalid.
  rewrite bool_decide_eq_false_2 by (intros Hne; by apply Hne).
  unfold page_attributes_add.
  by rewrite bool_decide_eq_true_2 by by apply Forall_forall.
Qed.

Lemma assign_integrity_error db page_type_id attribute_ids page_type node_type
    attr_pks (missing : Z) :
  get_node_or_error (page_type_rows db) page_type_id = Return page_type →
  resolve_global_ids_to_primary_keys attribute_ids
    = Return (node_type, attr_pks) →
  PageAttributeAssign.clean_attributes db ∅ page_type attr_pks = ∅ →
  missing ∈ attr_pks →
  missing ∉ models.pk <$> attribute_rows db →
  page_attributes_add page_type attr_pks db = (Raise IntegrityError, db)
  ∧ PageAttributeAssign.perform_mutation db page_type_id attribute_ids
    = (Raise IntegrityError, db).
Proof.
  intros Hnode Hpks Hvalid Hcand Hmissing.
  assert (page_attributes_add page_type attr_pks db
          = (Raise IntegrityError, db)) as Hadd.
  { unfold page_attributes_add. rewrite bool_decide_eq_false_2; [done|].
    intros Hall. apply Hmissing. by apply (proj1 (Forall_forall _ _) Hall). }
  split; [done|]. unfold PageAttributeAssign.perform_mutation.
  rewrite Hnode, Hpks, Hvalid.
  rewrite bool_decide_eq_false_2 by (intros Hne; by apply Hne).
  by rewrite Hadd.
Qed.

(** C1, as amended: when every candidate is the key of an attribute row, no
    candidate is an attribute of a wrong kind and no candidate is an
    attribute already assigned to the target page type, [assign] returns the
    page type without raising, and the assignment relation of the page type
    becomes the previous one united with the set of the candidates
    (a candidate repeated in the input counts once). *)
Theorem assign_adds_candidates db page_type_id attribute_ids page_type
    node_type attr_pks :
  get_node_or_error (page_type_rows db) page_type_id = Return page_type →
  resolve_global_ids_to_primary_keys attribute_ids
    = Return (node_type, attr_pks) →
  (∀ a, a ∈ attr_pks → a ∈ models.pk <$> attribute_rows db) →
  (∀ attr, attr ∈ attribute_rows db → models.pk attr ∈ attr_pks →
           models.type attr = AttributeType.PAGE_TYPE) →
  (∀ attr, attr ∈ attribute_rows db → models.pk attr ∈ attr_pks →
           models.pk attr ∉ page_attributes page_type db) →
  ∃ db',
    PageAttributeAssign.perform_mutation db page_type_id attribute_ids
      = (Return page_type, db')
    ∧ page_attributes page_type db'
      = page_attributes page_type db ∪ list_to_set attr_pks
    ∧ page_attributes page_type db'
      = page_attributes page_type db ∪ list_to_set (remove_dups attr_pks).
Proof.
  intros Hnode Hpks Hrows Hkind Hfresh.
  exists (insert_links page_type attr_pks db).
  rewrite insert_links_eq. split_and!; [|done|].
  - apply (assign_valid _ _ _ _ node_type); [done..| |done].
    apply clean_attributes_valid. split.
    + by apply invalid_attributes_nil.
    + by apply assigned_attrs_nil.
  - f_equal. apply set_eq. intros a.
    by rewrite !elem_of_list_to_set, elem_of_remove_dups.
Qed.

(** C2: when some candidate is an attribute whose kind is not the page type
    one, [assign] raises; under the key [attribute_ids] the report holds
    exactly one error of kind [INVALID], with the message
    "Only page attributes can be assigned.", whose identifier list is the
    global identifiers of exactly the candidates of a wrong kind; the store,
    and so the assignment relation, is unchanged. *)
Theorem assign_rejects_wrong_kind db page_type_id attribute_ids page_type
    node_type attr_pks :
  get_node_or_error (page_type_rows db) page_type_id = Return page_type →
  resolve_global_ids_to_primary_keys attribute_ids
    = Return (node_type, attr_pks) →
  (∃ attr, attr ∈ attribute_rows db ∧ models.pk attr ∈ attr_pks
           ∧ models.type attr ≠ AttributeType.PAGE_TYPE) →
  ∃ errors ids rest,
    PageAttributeAssign.perform_mutation db page_type_id attribute_ids
      = (Raise (ValidationErrorDict errors), db)
    ∧ dom errors = {[ "attribute_ids" ]}
    ∧ errors !! "attribute_ids"
      = Some ({| message := "Only page attributes can be assigned.";
                 code := PageErrorCode.INVALID;
                 params := {[ "attributes" := ids ]} |} :: rest)
    ∧ Forall (λ error, code error ≠ PageErrorCode.INVALID) rest
    ∧ (∀ global_id,
         global_id ∈ ids
         ↔ ∃ attr, attr ∈ attribute_rows db ∧ models.pk attr ∈ attr_pks
                   ∧ models.type attr ≠ AttributeType.PAGE_TYPE
                   ∧ global_id = to_global_id "Attribute" (models.pk attr)).
Proof.
  intros Hnode Hpks (wrong & Hrow & Hcand & Hkind).
  assert (wrong ∈ PageAttributeAssign.invalid_attributes db attr_pks) as Hin
    by by apply elem_of_invalid_attributes.
  exists (PageAttributeAssign.clean_attributes db ∅ page_type attr_pks),
    (PageAttributeAssign.global_ids
       (PageAttributeAssign.invalid_attributes db attr_pks)).
  assert (∀ global_id,
    global_id ∈ PageAttributeAssign.global_ids
                  (PageAttributeAssign.invalid_attributes db attr_pks)
    ↔ ∃ attr, attr ∈ attribute_rows db ∧ models.pk attr ∈ attr_pks
              ∧ models.type attr ≠ AttributeType.PAGE_TYPE
              ∧ global_id = to_global_id "Attribute" (models.pk attr))
    as Hids.
  { intros global_id. unfold PageAttributeAssign.global_ids.
    rewrite list_elem_of_fmap. split.
    - intros (attr & -> & Hattr).
      apply elem_of_invalid_attributes in Hattr as (? & ? & ?). by exists attr.
    - intros (attr & ? & ? & ? & ->). exists attr. split; [done|].
      by apply elem_of_invalid_attributes. }
  unfold PageAttributeAssign.perform_mutation. rewrite Hnode, Hpks.
  rewrite clean_attributes_report. cbv zeta.
  destruct (PageAttributeAssign.invalid_attributes db attr_pks) as [|i li];
    [by apply not_elem_of_nil in Hin|].
  destruct (PageAttributeAssign.assigned_attrs db page_type attr_pks)
    as [|a la].
  - exists []. rewrite bool_decide_eq_true_2 by apply insert_non_empty.
    rewrite dom_singleton_L, lookup_singleton_eq. split_and!; done.
  - eexists [_]. rewrite bool_decide_eq_true_2 by apply insert_non_empty.
    rewrite dom_singleton_L, lookup_singleton_eq.
    split_and!; [done..| |done]. by repeat constructor.
Qed.

(** C3: when some candidate is an attribute already assigned to the target
    page type, [assign] raises; under the key [attribute_ids] the report holds
    exactly one error of kind [ATTRIBUTE_ALREADY_ASSIGNED], with the message
    of the source, whose identifier list is the global identifiers of exactly
    the candidates already assigned; the store is unchanged. *)
Theorem assign_rejects_already_assigned db page_type_id attribute_ids
    page_type node_type attr_pks :
  get_node_or_error (page_type_rows db) page_type_id = Return page_type →
  resolve_global_ids_to_primary_keys attribute_ids
    = Return (node_type, attr_pks) →
  (∃ attr, attr ∈ attribute_rows db ∧ models.pk attr ∈ attr_pks
           ∧ models.pk attr ∈ page_attributes page_type db) →
  ∃ errors ids before,
    PageAttributeAssign.perform_mutation db page_type_id attribute_ids
      = (Raise (ValidationErrorDict errors), db)
    ∧ dom errors = {[ "attribute_ids" ]}
    ∧ errors !! "attribute_ids"
      = Some (before ++
              [{| message :=
                    "Some of the attributes have been already assigned to this page type.";
                  code := PageErrorCode.ATTRIBUTE_ALREADY_ASSIGNED;
                  params := {[ "attributes" := ids ]} |}])%list
    ∧ Forall (λ error, code error ≠ PageErrorCode.ATTRIBUTE_ALREADY_ASSIGNED)
             before
    ∧ (∀ global_id,
         global_id ∈ ids
         ↔ ∃ attr, attr ∈ attribute_rows db ∧ models.pk attr ∈ attr_pks
                   ∧ models.pk attr ∈ page_attributes page_type db
                   ∧ global_id = to_global_id "Attribute" (models.pk attr)).
Proof.
  intros Hnode Hpks (linked & Hrow & Hcand & Hlinked).
  assert (linked ∈ PageAttributeAssign.assigned_attrs db page_type attr_pks)
    as Hin by by apply elem_of_assigned_attrs.
  exists (PageAttributeAssign.clean_attributes db ∅ page_type attr_pks),
    (PageAttributeAssign.global_ids
       (PageAttributeAssign.assigned_attrs db page_type attr_pks)).
  assert (∀ global_id,
    global_id ∈ PageAttributeAssign.global_ids
                  (PageAttributeAssign.assigned_attrs db page_type attr_pks)
    ↔ ∃ attr, attr ∈ attribute_rows db ∧ models.pk attr ∈ attr_pks
              ∧ models.pk attr ∈ page_attributes page_type db
              ∧ global_id = to_global_id "Attribute" (models.pk attr))
    as Hids.
  { intros global_id. unfold PageAttributeAssign.global_ids.
    rewrite list_elem_of_fmap. split.
    - intros (attr & -> & Hattr).
      apply elem_of_assigned_attrs in Hattr as (? & ? & ?). by exists attr.
    - intros (attr & ? & ? & ? & ->). exists attr. split; [done|].
      by apply elem_of_assigned_attrs. }
  unfold PageAttributeAssign.perform_mutation. rewrite Hnode, Hpks.
  rewrite clean_attributes_report. cbv zeta.
  destruct (PageAttributeAssign.assigned_attrs db page_type attr_pks)
    as [|a la]; [by apply not_elem_of_nil in Hin|].
  destruct (PageAttributeAssign.invalid_attributes db attr_pks) as [|i li].
  - exists []. rewrite bool_decide_eq_true_2 by apply insert_non_empty.
    rewrite dom_singleton_L, lookup_singleton_eq. split_and!; done.
  - eexists [_]. rewrite bool_decide_eq_true_2 by apply insert_non_empty.
    rewrite dom_singleton_L, lookup_singleton_eq.
    split_and!; [done..| |done]. by repeat constructor.
Qed.

(** C4: the two checks of [clean_attributes] both run.  When some candidate
    is of a wrong kind and some candidate is already assigned, [assign] raises
    one report whose list under [attribute_ids] holds two errors: the one of
    kind [INVALID], with its message and the global identifiers of exactly
    the candidates of a wrong kind, followed by the one of kind
    [ATTRIBUTE_ALREADY_ASSIGNED], with its message and the global identifiers
    of exactly the candidates already assigned; the store is unchanged; a
    candidate that is both of a wrong kind and already assigned has its
    global identifier in the identifier lists of both errors. *)
Theorem assign_reports_both_errors db page_type_id attribute_ids page_type
    node_type attr_pks :
  get_node_or_error (page_type_rows db) page_type_id = Return page_type →
  resolve_global_ids_to_primary_keys attribute_ids
    = Return (node_type, attr_pks) →
  (∃ attr, attr ∈ attribute_rows db ∧ models.pk attr ∈ attr_pks
           ∧ models.type attr ≠ AttributeType.PAGE_TYPE) →
  (∃ attr, attr ∈ attribute_rows db ∧ models.pk attr ∈ attr_pks
           ∧ models.pk attr ∈ page_attributes page_type db) →
  ∃ invalid_ids assigned_ids,
    PageAttributeAssign.perform_mutation db page_type_id attribute_ids
      = (Raise (ValidationErrorDict
           {[ "attribute_ids" :=
                [ {| message := "Only page attributes can be assigned.";
                     code := PageErrorCode.INVALID;
                     params := {[ "attributes" := invalid_ids ]} |};
                  {| message :=
                       "Some of the attributes have been already assigned to this page type.";
                     code := PageErrorCode.ATTRIBUTE_ALREADY_ASSIGNED;
                     params := {[ "attributes" := assigned_ids ]} |} ] ]}),
         db)
    ∧ (∀ global_id,
         global_id ∈ invalid_ids
         ↔ ∃ attr, attr ∈ attribute_rows db ∧ models.pk attr ∈ attr_pks
                   ∧ models.type attr ≠ AttributeType.PAGE_TYPE
                   ∧ global_id = to_global_id "Attribute" (models.pk attr))
    ∧ (∀ global_id,
         global_id ∈ assigned_ids
         ↔ ∃ attr, attr ∈ attribute_rows db ∧ models.pk attr ∈ attr_pks
                   ∧ models.pk attr ∈ page_attributes page_type db
                   ∧ global_id = to_global_id "Attribute" (models.pk attr))
    ∧ (∀ attr, attr ∈ attribute_rows db → models.pk attr ∈ attr_pks →
         models.type attr ≠ AttributeType.PAGE_TYPE →
         models.pk attr ∈ page_attributes page_type db →
         to_global_id "Attribute" (models.pk attr) ∈ invalid_ids
         ∧ to_global_id "Attribute" (models.pk attr) ∈ assigned_ids).
Proof.
  intros Hnode Hpks (wrong & Hw1 & Hw2 & Hw3) (linked & Hl1 & Hl2 & Hl3).
  exists
    (PageAttributeAssign.global_ids
       (PageAttributeAssign.invalid_attributes db attr_pks)),
    (PageAttributeAssign.global_ids
       (PageAttributeAssign.assigned_attrs db page_type attr_pks)).
  assert (∀ global_id,
    global_id ∈ PageAttributeAssign.global_ids
                  (PageAttributeAssign.invalid_attributes db attr_pks)
    ↔ ∃ attr, attr ∈ attribute_rows db ∧ models.pk attr ∈ attr_pks
              ∧ models.type attr ≠ AttributeType.PAGE_TYPE
              ∧ global_id = to_global_id "Attribute" (models.pk attr))
    as Hinvalid.
  { intros global_id. unfold PageAttributeAssign.global_ids.
    rewrite list_elem_of_fmap. split.
    - intros (attr & -> & Hattr).
      apply elem_of_invalid_attributes in Hattr as (? & ? & ?). by exists attr.
    - intros (attr & ? & ? & ? & ->). exists attr. split; [done|].
      by apply elem_of_invalid_attributes. }
  assert (∀ global_id,
    global_id ∈ PageAttributeAssign.global_ids
                  (PageAttributeAssign.assigned_attrs db page_type attr_pks)
    ↔ ∃ attr, attr ∈ attribute_rows db ∧ models.pk attr ∈ attr_pks
              ∧ models.pk attr ∈ page_attributes page_type db
              ∧ global_id = to_global_id "Attribute" (models.pk attr))
    as Hassigned.
  { intros global_id. unfold PageAttributeAssign.global_ids.
    rewrite list_elem_of_fmap. split.
    - intros (attr & -> & Hattr).
      apply elem_of_assigned_attrs in Hattr as (? & ? & ?). by exists attr.
    - intros (attr & ? & ? & ? & ->). exists attr. split; [done|].
      by apply elem_of_assigned_attrs. }
  split_and!; [|done|done|].
  - assert (wrong ∈ PageAttributeAssign.invalid_attributes db attr_pks)
      as Hwrong by by apply elem_of_invalid_attributes.
    assert (linked ∈ PageAttributeAssign.assigned_attrs db page_type attr_pks)
      as Hlinked by by apply elem_of_assigned_attrs.
    unfold PageAttributeAssign.perform_mutation. rewrite Hnode, Hpks.
    rewrite clean_attributes_report. cbv zeta.
    destruct (PageAttributeAssign.invalid_attributes db attr_pks) as [|i li];
      [by apply not_elem_of_nil in Hwrong|].
    destruct (PageAttributeAssign.assigned_attrs db page_type attr_pks)
      as [|a la]; [by apply not_elem_of_nil in Hlinked|].
    by rewrite bool_decide_eq_true_2 by apply insert_non_empty.
  - intros attr Hrow Hcand Hkind Hlinks. split.
    + apply Hinvalid. by exists attr.
    + apply Hassigned. by exists attr.
Qed.

(** C5: [unassign] raises only what a collaborator raises.  When the page
    type and the identifiers resolve, it returns the page type, whatever the
    kind or the membership of the candidates; the assignment relation of the
    page type becomes the previous one without the candidates, and when no
    candidate was assigned the store is unchanged. *)
Theorem unassign_never_fails_validation db page_type_id attribute_ids :
  (∀ e, (PageAttributeUnassign.perform_mutation
           db page_type_id attribute_ids).1 = Raise e →
        get_node_or_error (page_type_rows db) page_type_id = Raise e
        ∨ resolve_global_ids_to_primary_keys attribute_ids = Raise e)
  ∧ (∀ page_type node_type attr_pks,
       get_node_or_error (page_type_rows db) page_type_id = Return page_type →
       resolve_global_ids_to_primary_keys attribute_ids
         = Return (node_type, attr_pks) →
       ∃ db',
         PageAttributeUnassign.perform_mutation db page_type_id attribute_ids
           = (Return page_type, db')
         ∧ page_attributes page_type db'
           = page_attributes page_type db ∖ list_to_set attr_pks
         ∧ (∀ a, a ∈ attr_pks → a ∉ page_attributes page_type db')
         ∧ ((∀ a, a ∈ attr_pks → a ∉ page_attributes page_type db) →
            db' = db)).
Proof.
  unfold PageAttributeUnassign.perform_mutation. split.
  - intros e.
    destruct (get_node_or_error (page_type_rows db) page_type_id)
      as [page_type|e1]; simpl; [|intros [= ->]; by left].
    destruct (resolve_global_ids_to_primary_keys attribute_ids)
      as [[node_type attr_pks]|e2]; simpl; [done|intros [= ->]; by right].
  - intros page_type node_type attr_pks -> ->.
    exists (page_attributes_remove page_type attr_pks db).
    rewrite page_attributes_remove_eq. split_and!; [done..| |].
    + intros a Ha. rewrite elem_of_difference, elem_of_list_to_set. tauto.
    + apply page_attributes_remove_absent.
Qed.

(** C6, as amended: when no candidate is an attribute of a wrong kind and no
    candidate is in the assignment relation of the page type, [assign]
    followed by [unassign] with the same candidates brings the store, and so
    the assignment relation, back to what it was.  [assign] raises no
    validation report there, and it returns, with the candidates linked, when
    every candidate is the key of an attribute row. *)
Theorem assign_then_unassign_restores db page_type_id attribute_ids page_type
    node_type attr_pks :
  get_node_or_error (page_type_rows db) page_type_id = Return page_type →
  resolve_global_ids_to_primary_keys attribute_ids
    = Return (node_type, attr_pks) →
  (∀ attr, attr ∈ attribute_rows db → models.pk attr ∈ attr_pks →
           models.type attr = AttributeType.PAGE_TYPE) →
  (∀ a, a ∈ attr_pks → a ∉ page_attributes page_type db) →
  let assigned :=
    PageAttributeAssign.perform_mutation db page_type_id attribute_ids in
  let unassigned :=
    PageAttributeUnassign.perform_mutation
      assigned.2 page_type_id attribute_ids in
  (assigned.1 = Return page_type ∨ assigned.1 = Raise IntegrityError)
  ∧ unassigned = (Return page_type, db)
  ∧ page_attributes page_type unassigned.2 = page_attributes page_type db
  ∧ ((∀ a, a ∈ attr_pks → a ∈ models.pk <$> attribute_rows db) →
     assigned = (Return page_type, insert_links page_type attr_pks db)
     ∧ page_attributes page_type assigned.2
       = page_attributes page_type db ∪ list_to_set attr_pks).
Proof.
  intros Hnode Hpks Hkind Hfresh. cbv zeta.
  assert (PageAttributeAssign.clean_attributes db ∅ page_type attr_pks = ∅)
    as Hvalid.
  { apply clean_attributes_valid. split.
    - by apply invalid_attributes_nil.
    - apply assigned_attrs_nil. intros attr _ Hcand. by apply Hfresh. }
  assert (page_attributes_remove page_type attr_pks
            (insert_links page_type attr_pks db) = db) as Hback.
  { destruct db as [rows types links].
    unfold page_attributes_remove, insert_links. simpl. f_equal.
    apply set_eq. intros [p a].
    rewrite elem_of_difference, elem_of_union, elem_of_links_of.
    split; [|intros Hin].
    - intros [[Hin|[-> Ha]] Hout]; [done|]. exfalso. by apply Hout.
    - split; [by left|]. intros [-> Ha]. apply (Hfresh a Ha).
      by apply elem_of_page_attributes. }
  destruct (decide (Forall (λ a, a ∈ models.pk <$> attribute_rows db)
                           attr_pks)) as [Hrows|Hdangling].
  - rewrite (assign_valid db page_type_id attribute_ids page_type node_type
               attr_pks Hnode Hpks Hvalid)
      by by apply Forall_forall.
    simpl. unfold PageAttributeUnassign.perform_mutation. simpl.
    rewrite Hnode, Hpks, Hback. split_and!; [by left|done|done|].
    intros _. by rewrite insert_links_eq.
  - apply not_Forall_Exists in Hdangling; [|apply _].
    apply Exists_exists in Hdangling as (missing & Hcand & Hmissing).
    destruct (assign_integrity_error db page_type_id attribute_ids page_type
                node_type attr_pks missing Hnode Hpks Hvalid Hcand Hmissing)
      as [_ ->].
    simpl. unfold PageAttributeUnassign.perform_mutation.
    rewrite Hnode, Hpks.
    rewrite page_attributes_remove_absent by done.
    split_and!; [by right|done|done|].
    intros Hrows. exfalso. by apply Hmissing, Hrows.
Qed.

(** C7: [unassign] is idempotent: called twice with the same candidates, it
    returns the page type both times, and the store after the second call is
    the store after the first. *)
Theorem unassign_idempotent db page_type_id attribute_ids page_type
    node_type attr_pks :
  get_node_or_error (page_type_rows db) page_type_id = Return page_type →
  resolve_global_ids_to_primary_keys attribute_ids
    = Return (node_type, attr_pks) →
  let once :=
    PageAttributeUnassign.perform_mutation db page_type_id attribute_ids in
  let twice :=
    PageAttributeUnassign.perform_mutation once.2 page_type_id attribute_ids in
  once.1 = Return page_type
  ∧ twice.1 = Return page_type
  ∧ twice.2 = once.2
  ∧ page_attributes page_type twice.2 = page_attributes page_type once.2.
Proof.
  intros Hnode Hpks. cbv zeta.
  unfold PageAttributeUnassign.perform_mutation. rewrite Hnode, Hpks. simpl.
  rewrite Hnode. simpl.
  assert (page_attributes_remove page_type attr_pks
            (page_attributes_remove page_type attr_pks db)
          = page_attributes_remove page_type attr_pks db) as ->.
  { apply page_attributes_remove_absent. intros a Ha.
    rewrite page_attributes_remove_eq, elem_of_difference,
      elem_of_list_to_set. tauto. }
  done.
Qed.

(** C8: a candidate primary key that no attribute row has is in neither query
    result of [clean_attributes]; the report is the one the other candidates
    alone produce; and when that report is empty, [assign] goes on to the
    relation mutation with the key among the candidates: its outcome is the
    outcome of [add] on all the candidates, which is [IntegrityError], for
    the key has no row, with nothing linked. *)
Theorem assign_ignores_missing_attribute db page_type_id attribute_ids
    page_type node_type attr_pks (missing : Z) :
  get_node_or_error (page_type_rows db) page_type_id = Return page_type →
  resolve_global_ids_to_primary_keys attribute_ids
    = Return (node_type, attr_pks) →
  missing ∈ attr_pks →
  (∀ attr, attr ∈ attribute_rows db → models.pk attr ≠ missing) →
  (missing ∉ models.pk <$> PageAttributeAssign.invalid_attributes db attr_pks)
  ∧ (missing
     ∉ models.pk <$> PageAttributeAssign.assigned_attrs db page_type attr_pks)
  ∧ PageAttributeAssign.clean_attributes db ∅ page_type attr_pks
    = PageAttributeAssign.clean_attributes db ∅ page_type
        (filter (λ a, a ≠ missing) attr_pks)
  ∧ (PageAttributeAssign.clean_attributes db ∅ page_type attr_pks = ∅ →
     page_attributes_add page_type attr_pks db = (Raise IntegrityError, db)
     ∧ PageAttributeAssign.perform_mutation db page_type_id attribute_ids
       = (Raise IntegrityError, db)).
Proof.
  intros Hnode Hpks Hcand Hmissing.
  assert (PageAttributeAssign.invalid_attributes db
            (filter (λ a, a ≠ missing) attr_pks)
          = PageAttributeAssign.invalid_attributes db attr_pks) as Hinvalid.
  { unfold PageAttributeAssign.invalid_attributes, filter_pk_in. f_equal.
    apply filter_ext_in. intros attr Hrow.
    rewrite list_elem_of_filter. specialize (Hmissing attr Hrow). tauto. }
  assert (PageAttributeAssign.assigned_attrs db page_type
            (filter (λ a, a ≠ missing) attr_pks)
          = PageAttributeAssign.assigned_attrs db page_type attr_pks)
    as Hassigned.
  { unfold PageAttributeAssign.assigned_attrs, filter_pk_in.
    apply filter_ext_in. intros attr Hrow.
    unfold get_assigned_page_type_attributes in Hrow.
    apply list_elem_of_filter in Hrow as [_ Hrow].
    rewrite list_elem_of_filter. specialize (Hmissing attr Hrow). tauto. }
  split_and!.
  - rewrite list_elem_of_fmap. intros (attr & -> & Hin).
    apply elem_of_invalid_attributes in Hin as (Hrow & _).
    by apply (Hmissing attr Hrow).
  - rewrite list_elem_of_fmap. intros (attr & -> & Hin).
    apply elem_of_assigned_attrs in Hin as (Hrow & _).
    by apply (Hmissing attr Hrow).
  - by rewrite !clean_attributes_report, Hinvalid, Hassigned.
  - intros Hvalid.
    apply (assign_integrity_error _ _ _ _ node_type _ missing); [done..|].
    rewrite list_elem_of_fmap. intros (attr & -> & Hrow).
    by apply (Hmissing attr Hrow).
Qed.

(** C9: [assign] with an empty candidate list returns the page type without
    raising and leaves the store, and so the assignment relation of the page
    type, unchanged. *)
Theorem assign_empty_candidates db page_type_id page_type node_type :
  get_node_or_error (page_type_rows db) page_type_id = Return page_type →
  resolve_global_ids_to_primary_keys [] = Return (node_type, []) →
  PageAttributeAssign.clean_attributes db ∅ page_type [] = ∅
  ∧ PageAttributeAssign.perform_mutation db page_type_id []
    = (Return page_type, db)
  ∧ page_attributes page_type
      (PageAttributeAssign.perform_mutation db page_type_id []).2
    = page_attributes page_type db.
Proof.
  intros Hnode Hpks.
  assert (PageAttributeAssign.clean_attributes db ∅ page_type [] = ∅)
    as Hvalid.
  { apply clean_attributes_valid. split.
    - apply invalid_attributes_nil. intros attr _ Hin.
      by apply not_elem_of_nil in Hin.
    - apply assigned_attrs_nil. intros attr _ Hin.
      by apply not_elem_of_nil in Hin. }
  rewrite (assign_valid db page_type_id [] page_type node_type [])
    by (try done; intros a Ha; by apply not_elem_of_nil in Ha).
  by rewrite insert_links_nil.
Qed.

(** C10: frame.  Whatever [assign] or [unassign] returns or raises, the
    attribute table and the page type table are unchanged; an attribute that
    is not a candidate is assigned to the target page type afterwards exactly
    when it was before; and the assignment relation of every other page type
    is unchanged. *)
Theorem mutations_frame db page_type_id attribute_ids page_type node_type
    attr_pks (mutation : Store → string → list string →
                         Outcome page_models.PageType * Store) :
  mutation = PageAttributeAssign.perform_mutation
  ∨ mutation = PageAttributeUnassign.perform_mutation →
  get_node_or_error (page_type_rows db) page_type_id = Return page_type →
  resolve_global_ids_to_primary_keys attribute_ids
    = Return (node_type, attr_pks) →
  let db' := (mutation db page_type_id attribute_ids).2 in
  attribute_rows db' = attribute_rows db
  ∧ page_type_rows db' = page_type_rows db
  ∧ (∀ a, a ∉ attr_pks →
          a ∈ page_attributes page_type db' ↔ a ∈ page_attributes page_type db)
  ∧ (∀ other, page_models.pk other ≠ page_models.pk page_type →
              page_attributes other db' = page_attributes other db)
  ∧ (∀ p a, p ≠ page_models.pk page_type ∨ a ∉ attr_pks →
            (p, a) ∈ page_attribute_links db'
            ↔ (p, a) ∈ page_attribute_links db).
Proof.
  intros [-> | ->] Hnode Hpks; cbv zeta.
  - unfold PageAttributeAssign.perform_mutation. rewrite Hnode, Hpks.
    case_bool_decide; simpl; [by split_and!|].
    unfold page_attributes_add. case_bool_decide; simpl; [|by split_and!].
    split_and!; [done|done| | |].
    + intros a Ha.
      rewrite insert_links_eq, elem_of_union, elem_of_list_to_set.
      tauto.
    + intros other Hother. by apply insert_links_other.
    + intros p a Hout. rewrite elem_of_union, elem_of_links_of. tauto.
  - unfold PageAttributeUnassign.perform_mutation. rewrite Hnode, Hpks. simpl.
    split_and!; [done|done| | |].
    + intros a Ha.
      rewrite page_attributes_remove_eq, elem_of_difference,
        elem_of_list_to_set. tauto.
    + intros other Hother. by apply page_attributes_remove_other.
    + intros p a Hout. rewrite elem_of_difference, elem_of_links_of. tauto.
Qed.
End mutation_properties.

(** ** The mutations on the example stores, with relay identifiers *)

Section examples.
#[local] Existing Instance relay.collaborators.
Import fixtures.

Ltac run := vm_compute; reflexivity.
Ltac decide_it := apply (bool_decide_unpack _); vm_compute; exact I.
Ltac check_each :=
  refine (proj1 (Forall_forall _ _) _);
  apply (bool_decide_unpack _); vm_compute; exact I.

(** [assign(P, [A2, A9, A2])]: both are page attributes not yet assigned. *)
Lemma assign_adds_candidates_witness :
  ∃ db',
    PageAttributeAssign.perform_mutation db P_id
      [attribute_id 2; attribute_id 9; attribute_id 2]
      = (Return P, db')
    ∧ page_attributes P db' = page_attributes P db ∪ list_to_set [2; 9; 2]
    ∧ page_attributes P db'
      = page_attributes P db ∪ list_to_set (remove_dups [2; 9; 2]).
Proof.
  apply (assign_adds_candidates db P_id
           [attribute_id 2; attribute_id 9; attribute_id 2]
           P (Some "Attribute") [2; 9; 2]).
  - run.
  - run.
  - check_each.
  - check_each.
  - check_each.
Defined.

(** C1, as stated, fails: in [assign(P, [A2, 50])] no attribute has the key
    50, so no candidate is an attribute of a wrong kind and none is assigned
    to [P]; the validation passes, [add] raises [IntegrityError] and nothing
    is linked, not even [A2]. *)
Lemma assign_adds_candidates_counterexample :
  get_node_or_error (page_type_rows db) P_id = Return P
  ∧ resolve_global_ids_to_primary_keys [attribute_id 2; attribute_id 50]
    = Return (Some "Attribute", [2; 50])
  ∧ (∀ attr, attr ∈ attribute_rows db → models.pk attr ∈ [2; 50] →
             models.type attr = AttributeType.PAGE_TYPE)
  ∧ (∀ a, a ∈ [2; 50] → a ∉ page_attributes P db)
  ∧ PageAttributeAssign.invalid_attributes db [2; 50] = []
  ∧ PageAttributeAssign.assigned_attrs db P [2; 50] = []
  ∧ PageAttributeAssign.perform_mutation db P_id
      [attribute_id 2; attribute_id 50]
    = (Raise IntegrityError, db)
  ∧ page_attributes P db ≠ page_attributes P db ∪ list_to_set [2; 50].
Proof.
  split_and!.
  - run.
  - run.
  - check_each.
  - check_each.
  - run.
  - run.
  - run.
  - decide_it.
Qed.

(** [assign(P, [A3])]: [A3] is a product attribute. *)
Lemma assign_rejects_wrong_kind_witness :
  ∃ errors ids rest,
    PageAttributeAssign.perform_mutation db P_id [attribute_id 3]
      = (Raise (ValidationErrorDict errors), db)
    ∧ dom errors = {[ "attribute_ids" ]}
    ∧ errors !! "attribute_ids"
      = Some ({| message := "Only page attributes can be assigned.";
                 code := PageErrorCode.INVALID;
                 params := {[ "attributes" := ids ]} |} :: rest)
    ∧ Forall (λ error, code error ≠ PageErrorCode.INVALID) rest
    ∧ (∀ global_id,
         global_id ∈ ids
         ↔ ∃ attr, attr ∈ attribute_rows db ∧ models.pk attr ∈ [3]
                   ∧ models.type attr ≠ AttributeType.PAGE_TYPE
                   ∧ global_id = to_global_id "Attribute" (models.pk attr)).
Proof.
  apply (assign_rejects_wrong_kind db P_id [attribute_id 3]
           P (Some "Attribute") [3]).
  - run.
  - run.
  - exists A3. split_and!; decide_it.
Defined.

(** [assign(P, [A1])]: [A1] is already assigned to [P]. *)
Lemma assign_rejects_already_assigned_witness :
  ∃ errors ids before,
    PageAttributeAssign.perform_mutation db P_id [attribute_id 1]
      = (Raise (ValidationErrorDict errors), db)
    ∧ dom errors = {[ "attribute_ids" ]}
    ∧ errors !! "attribute_ids"
      = Some (before ++
              [{| message :=
                    "Some of the attributes have been already assigned to this page type.";
                  code := PageErrorCode.ATTRIBUTE_ALREADY_ASSIGNED;
                  params := {[ "attributes" := ids ]} |}])%list
    ∧ Forall (λ error, code error ≠ PageErrorCode.ATTRIBUTE_ALREADY_ASSIGNED)
             before
    ∧ (∀ global_id,
         global_id ∈ ids
         ↔ ∃ attr, attr ∈ attribute_rows db ∧ models.pk attr ∈ [1]
                   ∧ models.pk attr ∈ page_attributes P db
                   ∧ global_id = to_global_id "Attribute" (models.pk attr)).
Proof.
  apply (assign_rejects_already_assigned db P_id [attribute_id 1]
           P (Some "Attribute") [1]).
  - run.
  - run.
  - exists A1. split_and!; decide_it.
Defined.

(** [assign(P, [A3])] on the inconsistent store: [A3] is a product attribute
    and is linked to [P]. *)
Lemma assign_reports_both_errors_witness :
  ∃ invalid_ids assigned_ids,
    PageAttributeAssign.perform_mutation inconsistent_db P_id [attribute_id 3]
      = (Raise (ValidationErrorDict
           {[ "attribute_ids" :=
                [ {| message := "Only page attributes can be assigned.";
                     code := PageErrorCode.INVALID;
                     params := {[ "attributes" := invalid_ids ]} |};
                  {| message :=
                       "Some of the attributes have been already assigned to this page type.";
                     code := PageErrorCode.ATTRIBUTE_ALREADY_ASSIGNED;
                     params := {[ "attributes" := assigned_ids ]} |} ] ]}),
         inconsistent_db)
    ∧ (∀ global_id,
         global_id ∈ invalid_ids
         ↔ ∃ attr, attr ∈ attribute_rows inconsistent_db
                   ∧ models.pk attr ∈ [3]
                   ∧ models.type attr ≠ AttributeType.PAGE_TYPE
                   ∧ global_id = to_global_id "Attribute" (models.pk attr))
    ∧ (∀ global_id,
         global_id ∈ assigned_ids
         ↔ ∃ attr, attr ∈ attribute_rows inconsistent_db
                   ∧ models.pk attr ∈ [3]
                   ∧ models.pk attr ∈ page_attributes P inconsistent_db
                   ∧ global_id = to_global_id "Attribute" (models.pk attr))
    ∧ (∀ attr, attr ∈ attribute_rows inconsistent_db →
         models.pk attr ∈ [3] →
         models.type attr ≠ AttributeType.PAGE_TYPE →
         models.pk attr ∈ page_attributes P inconsistent_db →
         to_global_id "Attribute" (models.pk attr) ∈ invalid_ids
         ∧ to_global_id "Attribute" (models.pk attr) ∈ assigned_ids).
Proof.
  apply (assign_reports_both_errors inconsistent_db P_id [attribute_id 3]
           P (Some "Attribute") [3]).
  - run.
  - run.
  - exists A3. split_and!; decide_it.
  - exists A3. split_and!; decide_it.
Defined.

(** [unassign(P, [A9])]: [A9] was never assigned. *)
Lemma unassign_never_fails_validation_witness :
  ∃ db',
    PageAttributeUnassign.perform_mutation db P_id [attribute_id 9]
      = (Return P, db')
    ∧ page_attributes P db' = page_attributes P db ∖ list_to_set [9]
    ∧ (∀ a, a ∈ [9] → a ∉ page_attributes P db')
    ∧ ((∀ a, a ∈ [9] → a ∉ page_attributes P db) → db' = db).
Proof.
  apply (proj2 (unassign_never_fails_validation db P_id [attribute_id 9])
           P (Some "Attribute") [9]).
  - run.
  - run.
Defined.

(** [assign(P, [A2, A9])] and then [unassign(P, [A2, A9])]. *)
Lemma assign_then_unassign_restores_witness :
  let assigned :=
    PageAttributeAssign.perform_mutation db P_id
      [attribute_id 2; attribute_id 9] in
  let unassigned :=
    PageAttributeUnassign.perform_mutation assigned.2 P_id
      [attribute_id 2; attribute_id 9] in
  (assigned.1 = Return P ∨ assigned.1 = Raise IntegrityError)
  ∧ unassigned = (Return P, db)
  ∧ page_attributes P unassigned.2 = page_attributes P db
  ∧ assigned = (Return P, insert_links P [2; 9] db)
  ∧ page_attributes P assigned.2 = page_attributes P db ∪ list_to_set [2; 9].
Proof.
  destruct (assign_then_unassign_restores db P_id
              [attribute_id 2; attribute_id 9] P (Some "Attribute") [2; 9])
    as (Hassigned & Hunassigned & Hrelation & Hrows).
  - run.
  - run.
  - check_each.
  - check_each.
  - split_and!; [exact Hassigned|exact Hunassigned|exact Hrelation|..];
      apply Hrows; check_each.
Defined.

(** C6, as stated, fails: [A1] is a page attribute already assigned to [P];
    [assign(P, [A1])] raises and changes nothing, and [unassign(P, [A1])]
    then removes [A1], so the relation of [P] is not what it was. *)
Lemma assign_then_unassign_counterexample :
  get_node_or_error (page_type_rows db) P_id = Return P
  ∧ resolve_global_ids_to_primary_keys [attribute_id 1]
    = Return (Some "Attribute", [1])
  ∧ (∀ attr, attr ∈ attribute_rows db → models.pk attr ∈ [1] →
             models.type attr = AttributeType.PAGE_TYPE)
  ∧ page_attributes P
      (PageAttributeUnassign.perform_mutation
         (PageAttributeAssign.perform_mutation db P_id [attribute_id 1]).2
         P_id [attribute_id 1]).2
    ≠ page_attributes P db.
Proof.
  split_and!.
  - run.
  - run.
  - check_each.
  - decide_it.
Qed.

(** [unassign(P, [A1, A9])] twice. *)
Lemma unassign_idempotent_witness :
  let once :=
    PageAttributeUnassign.perform_mutation db P_id
      [attribute_id 1; attribute_id 9] in
  let twice :=
    PageAttributeUnassign.perform_mutation once.2 P_id
      [attribute_id 1; attribute_id 9] in
  once.1 = Return P
  ∧ twice.1 = Return P
  ∧ twice.2 = once.2
  ∧ page_attributes P twice.2 = page_attributes P once.2.
Proof.
  apply (unassign_idempotent db P_id [attribute_id 1; attribute_id 9]
           P (Some "Attribute") [1; 9]).
  - run.
  - run.
Defined.

(** [assign(P, [A2, 50])]: no attribute has the primary key 50. *)
Lemma assign_ignores_missing_attribute_witness :
  (50 ∉ models.pk <$> PageAttributeAssign.invalid_attributes db [2; 50])
  ∧ (50 ∉ models.pk <$> PageAttributeAssign.assigned_attrs db P [2; 50])
  ∧ PageAttributeAssign.clean_attributes db ∅ P [2; 50]
    = PageAttributeAssign.clean_attributes db ∅ P
        (filter (λ a, a ≠ 50) [2; 50])
  ∧ page_attributes_add P [2; 50] db = (Raise IntegrityError, db)
  ∧ PageAttributeAssign.perform_mutation db P_id
      [attribute_id 2; attribute_id 50]
    = (Raise IntegrityError, db).
Proof.
  destruct (assign_ignores_missing_attribute db P_id
              [attribute_id 2; attribute_id 50] P (Some "Attribute")
              [2; 50] 50)
    as (Hinvalid & Hassigned & Hreport & Hadd).
  - run.
  - run.
  - decide_it.
  - check_each.
  - split_and!; [exact Hinvalid|exact Hassigned|exact Hreport|..];
      apply Hadd; run.
Defined.

(** [assign(P, [])]. *)
Lemma assign_empty_candidates_witness :
  PageAttributeAssign.clean_attributes db ∅ P [] = ∅
  ∧ PageAttributeAssign.perform_mutation db P_id [] = (Return P, db)
  ∧ page_attributes P (PageAttributeAssign.perform_mutation db P_id []).2
    = page_attributes P db.
Proof.
  apply (assign_empty_candidates db P_id P None).
  - run.
  - run.
Defined.

(** [unassign(P, [A1])] leaves [Q] and the other attributes of [P] alone. *)
Lemma mutations_frame_witness :
  let db' :=
    (PageAttributeUnassign.perform_mutation db P_id [attribute_id 1]).2 in
  attribute_rows db' = attribute_rows db
  ∧ page_type_rows db' = page_type_rows db
  ∧ (∀ a, a ∉ [1] → a ∈ page_attributes P db' ↔ a ∈ page_attributes P db)
  ∧ (∀ other, page_models.pk other ≠ page_models.pk P →
              page_attributes other db' = page_attributes other db)
  ∧ (∀ p a, p ≠ page_models.pk P ∨ a ∉ [1] →
            (p, a) ∈ page_attribute_links db'
            ↔ (p, a) ∈ page_attribute_links db).
Proof.
  apply (mutations_frame db P_id [attribute_id 1] P (Some "Attribute") [1]
           PageAttributeUnassign.perform_mutation).
  - by right.
  - run.
  - run.
Defined.
(** The scenarios of the specification, run on the example store. *)
Example scenario_assign_new :
  PageAttributeAssign.perform_mutation db P_id [attribute_id 2]
  = (Return P,
     {| attribute_rows := [A1; A2; A3; A9];
        page_type_rows := [P; Q];
        page_attribute_links := {[ (10, 1); (20, 2) ]} ∪ {[ (10, 2) ]} |}).
Proof. run. Qed.

Example scenario_assign_already_assigned :
  PageAttributeAssign.perform_mutation db P_id [attribute_id 1]
  = (Raise (ValidationErrorDict
       {[ "attribute_ids" :=
            [PageAttributeAssign.assigned_error ["QXR0cmlidXRlOjE="]] ]}),
     db).
Proof. run. Qed.

Example scenario_assign_product_attribute :
  PageAttributeAssign.perform_mutation db P_id [attribute_id 3]
  = (Raise (ValidationErrorDict
       {[ "attribute_ids" :=
            [PageAttributeAssign.invalid_error ["QXR0cmlidXRlOjM="]] ]}),
     db).
Proof. run. Qed.

Example scenario_assign_mixed :
  PageAttributeAssign.perform_mutation db P_id
    [attribute_id 3; attribute_id 9; attribute_id 1]
  = (Raise (ValidationErrorDict
       {[ "attribute_ids" :=
            [PageAttributeAssign.invalid_error ["QXR0cmlidXRlOjM="];
             PageAttributeAssign.assigned_error ["QXR0cmlidXRlOjE="]] ]}),
     db).
Proof. run. Qed.

Example scenario_assign_missing_attribute :
  PageAttributeAssign.perform_mutation db P_id
    [attribute_id 2; attribute_id 50]
  = (Raise IntegrityError, db).
Proof. run. Qed.

Example scenario_unassign_never_assigned :
  PageAttributeUnassign.perform_mutation db P_id [attribute_id 9]
  = (Return P, db).
Proof. run. Qed.

Example scenario_unknown_page_type :
  PageAttributeUnassign.perform_mutation db "UGFnZVR5cGU6OTk=" [attribute_id 1]
  = (Raise (ValidationErrorDict
       {[ "page_type_id" := [relay.not_found "UGFnZVR5cGU6OTk="] ]}),
     db).
Proof. run. Qed.
End examples.

(** ** Further properties of the mutations *)

Section further_properties.
Context `{Collaborators}.
Implicit Types (db : Store) (page_type : page_models.PageType).
Implicit Types (attr_pks : list Z) (attr : models.Attribute).
Implicit Types (page_type_id : string) (attribute_ids : list string).

Lemma assign_returned db page_type_id attribute_ids page_type :
  (PageAttributeAssign.perform_mutation db page_type_id attribute_ids).1
    = Return page_type →
  ∃ node_type attr_pks,
    get_node_or_error (page_type_rows db) page_type_id = Return page_type
    ∧ resolve_global_ids_to_primary_keys attribute_ids
      = Return (node_type, attr_pks)
    ∧ PageAttributeAssign.invalid_attributes db attr_pks = []
    ∧ PageAttributeAssign.assigned_attrs db page_type attr_pks = []
    ∧ (∀ a, a ∈ attr_pks → a ∈ models.pk <$> attribute_rows db)
    ∧ PageAttributeAssign.perform_mutation db page_type_id attribute_ids
      = (Return page_type, insert_links page_type attr_pks db).
Proof.
  unfold PageAttributeAssign.perform_mutation.
  destruct (get_node_or_error (page_type_rows db) page_type_id)
    as [found|]; [|done].
  destruct (resolve_global_ids_to_primary_keys attribute_ids)
    as [[node_type attr_pks]|]; [|done].
  case_bool_decide as Hreport; [done|].
  unfold page_attributes_add. case_bool_decide as Hrows; [|done].
  simpl. intros [= ->]. exists node_type, attr_pks.
  assert (PageAttributeAssign.clean_attributes db ∅ page_type attr_pks = ∅)
    as Hvalid by (by destruct (decide
      (PageAttributeAssign.clean_attributes db ∅ page_type attr_pks = ∅))).
  apply clean_attributes_valid in Hvalid as [Hinvalid Hassigned].
  split_and!; [done..| |done]. by apply Forall_forall.
Qed.

(** X1: a mutation that raises, whether [assign] or [unassign] and whatever
    the exception (a collaborator's, the validation report or the
    [IntegrityError] of [add]), returns the store it was given: nothing is
    linked or unlinked. *)
Theorem failed_mutation_keeps_store db page_type_id attribute_ids e
    (mutation : Store → string → list string →
                Outcome page_models.PageType * Store) :
  mutation = PageAttributeAssign.perform_mutation
  ∨ mutation = PageAttributeUnassign.perform_mutation →
  (mutation db page_type_id attribute_ids).1 = Raise e →
  (mutation db page_type_id attribute_ids).2 = db.
Proof.
  intros [-> | ->].
  - unfold PageAttributeAssign.perform_mutation.
    destruct (get_node_or_error (page_type_rows db) page_type_id); [|done].
    destruct (resolve_global_ids_to_primary_keys attribute_ids)
      as [[node_type attr_pks]|]; [|done].
    case_bool_decide; [done|].
    unfold page_attributes_add. by case_bool_decide.
  - unfold PageAttributeUnassign.perform_mutation.
    destruct (get_node_or_error (page_type_rows db) page_type_id); [|done].
    by destruct (resolve_global_ids_to_primary_keys attribute_ids)
      as [[node_type attr_pks]|].
Qed.

(** X2: [assign] returns only for valid candidates.  When it returns a page
    type, that page type is the one the node lookup gave, the identifiers
    resolved, every candidate is the key of an attribute row, every candidate
    that is an attribute row is a page attribute that was not assigned to the
    page type, the store is the given one with the links of the candidates
    inserted, and every candidate is assigned afterwards. *)
Theorem assign_returns_only_valid db page_type_id attribute_ids page_type :
  (PageAttributeAssign.perform_mutation db page_type_id attribute_ids).1
    = Return page_type →
  ∃ node_type attr_pks,
    get_node_or_error (page_type_rows db) page_type_id = Return page_type
    ∧ resolve_global_ids_to_primary_keys attribute_ids
      = Return (node_type, attr_pks)
    ∧ (∀ attr, attr ∈ attribute_rows db → models.pk attr ∈ attr_pks →
         models.type attr = AttributeType.PAGE_TYPE
         ∧ models.pk attr ∉ page_attributes page_type db)
    ∧ (PageAttributeAssign.perform_mutation db page_type_id attribute_ids).2
      = insert_links page_type attr_pks db
    ∧ (∀ a, a ∈ attr_pks →
         a ∈ page_attributes page_type
               (PageAttributeAssign.perform_mutation
                  db page_type_id attribute_ids).2)
    ∧ (∀ a, a ∈ attr_pks → a ∈ models.pk <$> attribute_rows db).
Proof.
  intros Hout. apply assign_returned in Hout
    as (node_type & attr_pks & Hnode & Hpks & Hinvalid & Hassigned & Hrows
        & ->).
  exists node_type, attr_pks. split_and!; [done|done| |done| |done].
  - intros attr Hrow Hcand. split.
    + by eapply invalid_attributes_nil.
    + by eapply assigned_attrs_nil.
  - intros a Ha. simpl.
    rewrite insert_links_eq, elem_of_union, elem_of_list_to_set.
    by right.
Qed.

(** X3: what [assign] raises once the page type and the identifiers have
    resolved.  It is either [IntegrityError], and then the validation found
    nothing and some candidate is not the key of an attribute row, or a
    validation report whose only key is [attribute_ids]; the errors of the
    report have the kinds [INVALID], or [ATTRIBUTE_ALREADY_ASSIGNED], or
    [INVALID] and then [ATTRIBUTE_ALREADY_ASSIGNED]; the identifier list of
    each error is not empty and holds only global identifiers of
    candidates. *)
Theorem assign_report_shape db page_type_id attribute_ids page_type node_type
    attr_pks e :
  get_node_or_error (page_type_rows db) page_type_id = Return page_type →
  resolve_global_ids_to_primary_keys attribute_ids
    = Return (node_type, attr_pks) →
  (PageAttributeAssign.perform_mutation db page_type_id attribute_ids).1
    = Raise e →
  (e = IntegrityError
   ∧ PageAttributeAssign.clean_attributes db ∅ page_type attr_pks = ∅
   ∧ ∃ missing, missing ∈ attr_pks
                ∧ missing ∉ models.pk <$> attribute_rows db)
  ∨ (∃ errors reported,
    e = ValidationErrorDict errors
    ∧ dom errors = {[ "attribute_ids" ]}
    ∧ errors !! "attribute_ids" = Some reported
    ∧ code <$> reported
      ∈ [ [PageErrorCode.INVALID];
          [PageErrorCode.ATTRIBUTE_ALREADY_ASSIGNED];
          [PageErrorCode.INVALID; PageErrorCode.ATTRIBUTE_ALREADY_ASSIGNED] ]
    ∧ Forall
        (λ error,
           ∃ ids, params error = {[ "attributes" := ids ]} ∧ ids ≠ []
                  ∧ ∀ global_id, global_id ∈ ids →
                      ∃ a, a ∈ attr_pks
                           ∧ global_id = to_global_id "Attribute" a)
        reported).
Proof.
  intros Hnode Hpks. unfold PageAttributeAssign.perform_mutation.
  rewrite Hnode, Hpks. case_bool_decide as Hreport.
  2:{ unfold page_attributes_add. case_bool_decide as Hrows; [done|].
      simpl. intros [= <-]. left. split_and!; [done| |].
      - by destruct (decide
          (PageAttributeAssign.clean_attributes db ∅ page_type attr_pks = ∅)).
      - apply not_Forall_Exists in Hrows; [|apply _].
        by apply Exists_exists in Hrows. }
  simpl. intros [= <-]. right. revert Hreport.
  rewrite clean_attributes_report. cbv zeta.
  assert (∀ global_id,
    global_id ∈ PageAttributeAssign.global_ids
                  (PageAttributeAssign.invalid_attributes db attr_pks) →
    ∃ a, a ∈ attr_pks ∧ global_id = to_global_id "Attribute" a) as Hinvalid.
  { intros global_id. unfold PageAttributeAssign.global_ids.
    rewrite list_elem_of_fmap. intros (attr & -> & Hin).
    apply elem_of_invalid_attributes in Hin as (_ & Hcand & _). eauto. }
  assert (∀ global_id,
    global_id ∈ PageAttributeAssign.global_ids
                  (PageAttributeAssign.assigned_attrs db page_type attr_pks) →
    ∃ a, a ∈ attr_pks ∧ global_id = to_global_id "Attribute" a) as Hassigned.
  { intros global_id. unfold PageAttributeAssign.global_ids.
    rewrite list_elem_of_fmap. intros (attr & -> & Hin).
    apply elem_of_assigned_attrs in Hin as (_ & Hcand & _). eauto. }
  destruct (PageAttributeAssign.invalid_attributes db attr_pks) as [|i li];
    destruct (PageAttributeAssign.assigned_attrs db page_type attr_pks)
      as [|a la]; intros Hreport; [done|..];
    eexists _, _; (split; [reflexivity|]);
    rewrite dom_singleton_L, lookup_singleton_eq;
    (split; [done|]); (split; [reflexivity|]); simpl; split.
  - set_solver.
  - repeat constructor. by eexists.
  - set_solver.
  - repeat constructor. by eexists.
  - set_solver.
  - repeat constructor; by eexists.
Qed.

(** X5: [clean_attributes] only appends.  Whatever the report holds on
    entry, its lists under the other keys are the same on exit, and its list
    under [attribute_ids] is the list on entry followed by the errors the
    validation puts in an empty report; a report that was not empty stays
    not empty. *)
Theorem clean_attributes_appends db page_type attr_pks
    (errors : gmap string (list ValidationError)) :
  let cleaned :=
    PageAttributeAssign.clean_attributes db errors page_type attr_pks in
  let found :=
    PageAttributeAssign.clean_attributes db ∅ page_type attr_pks in
  (∀ key, key ≠ "attribute_ids" → cleaned !! key = errors !! key)
  ∧ default [] (cleaned !! "attribute_ids")
    = (default [] (errors !! "attribute_ids")
       ++ default [] (found !! "attribute_ids"))%list
  ∧ (found = ∅ → cleaned = errors)
  ∧ (errors ≠ ∅ → cleaned ≠ ∅).
Proof.
  cbv zeta. rewrite clean_attributes_report. cbv zeta.
  unfold PageAttributeAssign.clean_attributes, append_error. cbv zeta.
  destruct (PageAttributeAssign.invalid_attributes db attr_pks) as [|i li];
    destruct (PageAttributeAssign.assigned_attrs db page_type attr_pks)
      as [|a la];
    repeat case_bool_decide; try done;
    rewrite ?lookup_insert_eq, ?insert_insert_eq, ?lookup_empty,
      ?lookup_singleton_eq; simpl;
    (split_and!;
      [ intros key Hkey; by rewrite ?lookup_insert_ne by done
      | by rewrite ?lookup_insert_eq, ?app_nil_r, <-?app_assoc
      | try done; intros Hempty;
        by apply (f_equal (λ m, m !! "attribute_ids")) in Hempty
      | try done; intros _; apply insert_non_empty ]).
Qed.

Lemma same_members_filter_pk_in (pks1 pks2 : list Z)
    (qs : list models.Attribute) :
  (∀ a, a ∈ pks1 ↔ a ∈ pks2) → filter_pk_in pks1 qs = filter_pk_in pks2 qs.
Proof. intros Hsame. apply list_filter_iff. intros attr. apply Hsame. Qed.

Lemma same_members_links_of page_type (pks1 pks2 : list Z) :
  (∀ a, a ∈ pks1 ↔ a ∈ pks2) → links_of page_type pks1 = links_of page_type pks2.
Proof.
  intros Hsame. apply set_eq. intros [p a]. rewrite !elem_of_links_of.
  by rewrite Hsame.
Qed.

(** X4: the candidates count as a set.  Two identifier lists that resolve to
    primary keys with the same members, in any order and with any
    repetitions, give the same outcome, report included, and the same store,
    for [assign] and for [unassign]. *)
Theorem candidates_count_as_a_set db page_type_id
    (attribute_ids1 attribute_ids2 : list string) node_type1 node_type2
    (attr_pks1 attr_pks2 : list Z) :
  resolve_global_ids_to_primary_keys attribute_ids1
    = Return (node_type1, attr_pks1) →
  resolve_global_ids_to_primary_keys attribute_ids2
    = Return (node_type2, attr_pks2) →
  (∀ a, a ∈ attr_pks1 ↔ a ∈ attr_pks2) →
  PageAttributeAssign.perform_mutation db page_type_id attribute_ids1
    = PageAttributeAssign.perform_mutation db page_type_id attribute_ids2
  ∧ PageAttributeUnassign.perform_mutation db page_type_id attribute_ids1
    = PageAttributeUnassign.perform_mutation db page_type_id attribute_ids2.
Proof.
  intros Hpks1 Hpks2 Hsame.
  assert (Forall (λ a, a ∈ models.pk <$> attribute_rows db) attr_pks1
          ↔ Forall (λ a, a ∈ models.pk <$> attribute_rows db) attr_pks2)
    as Hrows.
  { rewrite !Forall_forall.
    split; intros Hall a Ha; apply Hall; by apply Hsame. }
  unfold PageAttributeAssign.perform_mutation,
    PageAttributeUnassign.perform_mutation.
  rewrite Hpks1, Hpks2.
  destruct (get_node_or_error (page_type_rows db) page_type_id)
    as [page_type|]; [|done].
  unfold PageAttributeAssign.clean_attributes,
    PageAttributeAssign.invalid_attributes,
    PageAttributeAssign.assigned_attrs,
    page_attributes_add, insert_links, page_attributes_remove.
  rewrite !(same_members_filter_pk_in attr_pks1 attr_pks2) by done.
  rewrite (bool_decide_ext _ _ Hrows).
  by rewrite (same_members_links_of page_type attr_pks1 attr_pks2).
Qed.

Lemma page_attributes_remove_add_fresh page_type attr_pks db :
  (∀ a, a ∈ attr_pks → a ∉ page_attributes page_type db) →
  page_attributes_remove page_type attr_pks
    (insert_links page_type attr_pks db) = db.
Proof.
  intros Hfresh. destruct db as [rows types links].
  unfold page_attributes_remove, insert_links. simpl. f_equal.
  apply set_eq. intros [p a].
  rewrite elem_of_difference, elem_of_union, elem_of_links_of.
  split; [|intros Hin].
  - intros [[Hin|[-> Ha]] Hout]; [done|]. exfalso. by apply Hout.
  - split; [by left|]. intros [-> Ha]. apply (Hfresh a Ha).
    by apply elem_of_page_attributes.
Qed.

(** X6: both mutations keep the kind invariant.  If every linked attribute
    row of the store is a page attribute, the same holds for the store
    [assign] or [unassign] returns, whether it raised or not. *)
Theorem mutations_keep_kind_invariant db page_type_id attribute_ids
    (mutation : Store → string → list string →
                Outcome page_models.PageType * Store) :
  mutation = PageAttributeAssign.perform_mutation
  ∨ mutation = PageAttributeUnassign.perform_mutation →
  kind_invariant db →
  kind_invariant (mutation db page_type_id attribute_ids).2.
Proof.
  intros [-> | ->] Hinv.
  - destruct (PageAttributeAssign.perform_mutation
                db page_type_id attribute_ids).1 as [page_type|e] eqn:Hout.
    + apply assign_returned in Hout
        as (node_type & attr_pks & _ & _ & Hinvalid & _ & _ & ->). simpl.
      intros [p a] Hlink. simpl in Hlink.
      apply elem_of_union in Hlink as [Hlink|Hlink]; [by apply Hinv|].
      apply elem_of_links_of in Hlink as [-> Ha]. simpl.
      apply Forall_forall. intros attr Hrow <-.
      by eapply invalid_attributes_nil.
    + unfold PageAttributeAssign.perform_mutation in *.
      destruct (get_node_or_error (page_type_rows db) page_type_id);
        [|done].
      destruct (resolve_global_ids_to_primary_keys attribute_ids)
        as [[node_type attr_pks]|]; [|done].
      case_bool_decide; [done|].
      unfold page_attributes_add in *. by case_bool_decide.
  - unfold PageAttributeUnassign.perform_mutation.
    destruct (get_node_or_error (page_type_rows db) page_type_id);
      [|done].
    destruct (resolve_global_ids_to_primary_keys attribute_ids)
      as [[node_type attr_pks]|]; [|done].
    simpl. intros link Hlink. apply elem_of_difference in Hlink as [Hlink _].
    by apply Hinv.
Qed.

(** X7: [assign] is not idempotent.  After an [assign] that returned, the
    same call on the resulting store raises a report whose only content is,
    under [attribute_ids], the single error of kind
    [ATTRIBUTE_ALREADY_ASSIGNED] with its message, which lists the global
    identifier of every attribute row that is a candidate, provided there is
    one; the store stays as the first call left it. *)
Theorem assign_twice_rejected db page_type_id attribute_ids page_type
    node_type attr_pks :
  resolve_global_ids_to_primary_keys attribute_ids
    = Return (node_type, attr_pks) →
  (PageAttributeAssign.perform_mutation db page_type_id attribute_ids).1
    = Return page_type →
  (∃ attr, attr ∈ attribute_rows db ∧ models.pk attr ∈ attr_pks) →
  let db1 :=
    (PageAttributeAssign.perform_mutation db page_type_id attribute_ids).2 in
  PageAttributeAssign.perform_mutation db1 page_type_id attribute_ids
  = (Raise (ValidationErrorDict
       {[ "attribute_ids" :=
            [ {| message :=
                   "Some of the attributes have been already assigned to this page type.";
                 code := PageErrorCode.ATTRIBUTE_ALREADY_ASSIGNED;
                 params :=
                   {[ "attributes" :=
                        (λ attr, to_global_id "Attribute" (models.pk attr))
                          <$> filter (λ attr, models.pk attr ∈ attr_pks)
                                     (attribute_rows db) ]} |} ] ]}),
     db1).
Proof.
  intros Hpks Hout (existing & Hrow & Hcand). cbv zeta.
  apply assign_returned in Hout
    as (node_type' & attr_pks' & Hnode & Hpks' & Hinvalid & _ & _ & ->).
  rewrite Hpks in Hpks'. injection Hpks' as <- <-. simpl.
  unfold PageAttributeAssign.perform_mutation. simpl. rewrite Hnode, Hpks.
  rewrite clean_attributes_report. cbv zeta.
  assert (PageAttributeAssign.invalid_attributes
            (insert_links page_type attr_pks db) attr_pks = [])
    as -> by done.
  assert (PageAttributeAssign.assigned_attrs
            (insert_links page_type attr_pks db) page_type attr_pks
          = filter_pk_in attr_pks (attribute_rows db)) as ->.
  { unfold PageAttributeAssign.assigned_attrs, filter_pk_in,
      get_assigned_page_type_attributes. simpl.
    apply list_filter_filter_l. intros attr Hattr.
    rewrite elem_of_union, elem_of_links_of. by right. }
  destruct (filter_pk_in attr_pks (attribute_rows db)) as [|a la] eqn:E.
  - assert (existing ∈ filter_pk_in attr_pks (attribute_rows db)) as Hin
      by by apply list_elem_of_filter.
    rewrite E in Hin. by apply not_elem_of_nil in Hin.
  - rewrite bool_decide_eq_true_2 by apply insert_non_empty.
    unfold filter_pk_in in E. by rewrite E.
Qed.

(** X8: [unassign] makes the candidates assignable again.  When every
    candidate is the key of an attribute row and none is of a wrong kind,
    [assign] after [unassign] with the same candidates returns, whatever was
    assigned before, and the assignment relation of the page type is then the
    original one united with the candidates. *)
Theorem unassign_then_assign db page_type_id attribute_ids page_type
    node_type attr_pks :
  get_node_or_error (page_type_rows db) page_type_id = Return page_type →
  resolve_global_ids_to_primary_keys attribute_ids
    = Return (node_type, attr_pks) →
  (∀ a, a ∈ attr_pks → a ∈ models.pk <$> attribute_rows db) →
  (∀ attr, attr ∈ attribute_rows db → models.pk attr ∈ attr_pks →
           models.type attr = AttributeType.PAGE_TYPE) →
  let db1 :=
    (PageAttributeUnassign.perform_mutation db page_type_id attribute_ids).2
  in
  ∃ db2,
    PageAttributeAssign.perform_mutation db1 page_type_id attribute_ids
      = (Return page_type, db2)
    ∧ page_attribute_links db2
      = page_attribute_links db ∪ links_of page_type attr_pks
    ∧ page_attributes page_type db2
      = page_attributes page_type db ∪ list_to_set attr_pks.
Proof.
  intros Hnode Hpks Hrows Hkind. cbv zeta.
  unfold PageAttributeUnassign.perform_mutation. rewrite Hnode, Hpks. simpl.
  exists (insert_links page_type attr_pks
            (page_attributes_remove page_type attr_pks db)).
  split_and!.
  - apply (assign_valid _ _ _ _ node_type); [done..| |done].
    apply clean_attributes_valid. split.
    + by apply invalid_attributes_nil.
    + apply assigned_attrs_nil. intros attr _ Hcand.
      rewrite page_attributes_remove_eq, elem_of_difference,
        elem_of_list_to_set. tauto.
  - simpl. apply set_eq. intros link.
    rewrite !elem_of_union, elem_of_difference.
    destruct (decide (link ∈ links_of page_type attr_pks)); tauto.
  - rewrite insert_links_eq, page_attributes_remove_eq.
    apply set_eq. intros a.
    rewrite !elem_of_union, elem_of_difference.
    destruct (decide (a ∈ (list_to_set attr_pks : gset Z))); tauto.
Qed.

(** X9: on a store whose links all point to attribute rows, an [assign] that
    returned linked only new attributes: no candidate was assigned before,
    the assignment relation of the page type grew by the number of distinct
    candidates, and [unassign] with the same identifiers brings back the
    original store. *)
Theorem assign_then_unassign_with_integrity db page_type_id attribute_ids
    page_type node_type attr_pks :
  referential_integrity db →
  resolve_global_ids_to_primary_keys attribute_ids
    = Return (node_type, attr_pks) →
  (PageAttributeAssign.perform_mutation db page_type_id attribute_ids).1
    = Return page_type →
  let db1 :=
    (PageAttributeAssign.perform_mutation db page_type_id attribute_ids).2 in
  (∀ a, a ∈ attr_pks → a ∉ page_attributes page_type db)
  ∧ size (page_attributes page_type db1)
    = (size (page_attributes page_type db)
       + length (remove_dups attr_pks))%nat
  ∧ PageAttributeUnassign.perform_mutation db1 page_type_id attribute_ids
    = (Return page_type, db).
Proof.
  intros Hintegrity Hpks Hout. cbv zeta.
  apply assign_returned in Hout
    as (node_type' & attr_pks' & Hnode & Hpks' & _ & Hassigned & _ & ->).
  rewrite Hpks in Hpks'. injection Hpks' as <- <-. simpl.
  assert (∀ a, a ∈ attr_pks → a ∉ page_attributes page_type db) as Hfresh.
  { intros a Ha Hlinked.
    pose proof Hlinked as Hlink. apply elem_of_page_attributes in Hlink.
    apply Hintegrity in Hlink. simpl in Hlink.
    apply list_elem_of_fmap in Hlink as (attr & -> & Hrow).
    by apply (proj1 (assigned_attrs_nil db page_type attr_pks) Hassigned attr). }
  split_and!; [done| |].
  - rewrite insert_links_eq, size_union.
    + f_equal. rewrite <-(size_list_to_set (C:=gset Z) (remove_dups attr_pks))
        by apply NoDup_remove_dups.
      f_equal. apply set_eq. intros a.
      by rewrite !elem_of_list_to_set, elem_of_remove_dups.
    + intros a Hin Ha. apply elem_of_list_to_set in Ha. by apply (Hfresh a).
  - unfold PageAttributeUnassign.perform_mutation. simpl.
    rewrite Hnode, Hpks. by rewrite page_attributes_remove_add_fresh.
Qed.

(** X10: two [assign] calls that both return can be made in the other order:
    both return then too, and the final store is the same. *)
Theorem assign_order_irrelevant db page_type_id
    (attribute_ids1 attribute_ids2 : list string) page_type :
  let first :=
    PageAttributeAssign.perform_mutation db page_type_id attribute_ids1 in
  let second :=
    PageAttributeAssign.perform_mutation first.2 page_type_id attribute_ids2 in
  let first' :=
    PageAttributeAssign.perform_mutation db page_type_id attribute_ids2 in
  let second' :=
    PageAttributeAssign.perform_mutation first'.2 page_type_id attribute_ids1
  in
  first.1 = Return page_type →
  second.1 = Return page_type →
  first'.1 = Return page_type
  ∧ second'.1 = Return page_type
  ∧ second'.2 = second.2.
Proof.
  cbv zeta. intros Hfirst Hsecond.
  apply assign_returned in Hfirst
    as (nt1 & pks1 & Hnode & Hpks1 & Hinvalid1 & Hassigned1 & Hrows1 & Heq1).
  rewrite Heq1 in Hsecond |- *. simpl in *.
  apply assign_returned in Hsecond
    as (nt2 & pks2 & _ & Hpks2 & Hinvalid2 & Hassigned2 & Hrows2 & Heq2).
  rewrite Heq2. simpl.
  assert (PageAttributeAssign.perform_mutation db page_type_id attribute_ids2
          = (Return page_type, insert_links page_type pks2 db))
    as Heq1'.
  { apply (assign_valid _ _ _ _ nt2); [done..| |done].
    apply clean_attributes_valid. split; [done|].
    apply assigned_attrs_nil. intros attr Hrow Hcand Hlinked.
    apply (proj1 (assigned_attrs_nil _ _ _) Hassigned2 attr Hrow Hcand).
    rewrite insert_links_eq, elem_of_union. by left. }
  rewrite Heq1'. simpl.
  assert (PageAttributeAssign.perform_mutation
            (insert_links page_type pks2 db) page_type_id attribute_ids1
          = (Return page_type,
             insert_links page_type pks1
               (insert_links page_type pks2 db))) as Heq2'.
  { apply (assign_valid _ _ _ _ nt1); [done..| |done].
    apply clean_attributes_valid. split; [done|].
    apply assigned_attrs_nil. intros attr Hrow Hcand.
    rewrite insert_links_eq, elem_of_union, elem_of_list_to_set.
    intros [Hlinked|Hboth].
    - by apply (proj1 (assigned_attrs_nil _ _ _) Hassigned1 attr Hrow Hcand).
    - apply (proj1 (assigned_attrs_nil _ _ _) Hassigned2 attr Hrow Hboth).
      rewrite insert_links_eq, elem_of_union, elem_of_list_to_set.
      by right. }
  rewrite Heq2'. split_and!; [done..|].
  unfold insert_links. simpl. f_equal.
  apply set_eq. intros link. rewrite !elem_of_union. tauto.
Qed.

(** X11: two [unassign] calls can be made in either order: the second call
    returns the page type either way, and the final store is the same, the
    original one without the links of any of the candidates. *)
Theorem unassign_order_irrelevant db page_type_id
    (attribute_ids1 attribute_ids2 : list string) page_type
    node_type1 node_type2 (attr_pks1 attr_pks2 : list Z) :
  get_node_or_error (page_type_rows db) page_type_id = Return page_type →
  resolve_global_ids_to_primary_keys attribute_ids1
    = Return (node_type1, attr_pks1) →
  resolve_global_ids_to_primary_keys attribute_ids2
    = Return (node_type2, attr_pks2) →
  let one_two :=
    PageAttributeUnassign.perform_mutation
      (PageAttributeUnassign.perform_mutation
         db page_type_id attribute_ids1).2
      page_type_id attribute_ids2 in
  let two_one :=
    PageAttributeUnassign.perform_mutation
      (PageAttributeUnassign.perform_mutation
         db page_type_id attribute_ids2).2
      page_type_id attribute_ids1 in
  one_two = two_one
  ∧ one_two.1 = Return page_type
  ∧ page_attributes page_type one_two.2
    = page_attributes page_type db
      ∖ (list_to_set attr_pks1 ∪ list_to_set attr_pks2).
Proof.
  intros Hnode Hpks1 Hpks2. cbv zeta.
  unfold PageAttributeUnassign.perform_mutation.
  rewrite Hnode, Hpks1, Hpks2. simpl. rewrite Hnode. split_and!.
  - f_equal. unfold page_attributes_remove. simpl. f_equal.
    apply set_eq. intros link. rewrite !elem_of_difference. tauto.
  - done.
  - simpl. rewrite !page_attributes_remove_eq.
    apply set_eq. intros a.
    rewrite !elem_of_difference, elem_of_union. tauto.
Qed.

(** X12: the identifier list of an error follows the attribute table, not the
    input: the rows found by either check of [clean_attributes] are a sublist
    of the table, so an identifier is listed once per matching row however
    often the input repeats it; with distinct primary keys in the table, the
    keys behind each list are distinct. *)
Theorem error_lists_follow_table db page_type attr_pks :
  PageAttributeAssign.global_ids
    (PageAttributeAssign.invalid_attributes db attr_pks)
    `sublist_of` PageAttributeAssign.global_ids (attribute_rows db)
  ∧ PageAttributeAssign.global_ids
      (PageAttributeAssign.assigned_attrs db page_type attr_pks)
      `sublist_of` PageAttributeAssign.global_ids (attribute_rows db)
  ∧ (NoDup (models.pk <$> attribute_rows db) →
     NoDup (models.pk <$> PageAttributeAssign.invalid_attributes db attr_pks)
     ∧ NoDup (models.pk
                <$> PageAttributeAssign.assigned_attrs db page_type attr_pks)).
Proof.
  assert (PageAttributeAssign.invalid_attributes db attr_pks
            `sublist_of` attribute_rows db) as Hinvalid.
  { unfold PageAttributeAssign.invalid_attributes, exclude_type, filter_pk_in.
    etrans; apply sublist_filter. }
  assert (PageAttributeAssign.assigned_attrs db page_type attr_pks
            `sublist_of` attribute_rows db) as Hassigned.
  { unfold PageAttributeAssign.assigned_attrs, filter_pk_in,
      get_assigned_page_type_attributes.
    etrans; apply sublist_filter. }
  unfold PageAttributeAssign.global_ids. split_and!.
  - by apply fmap_sublist.
  - by apply fmap_sublist.
  - intros Hdistinct. split.
    + eapply sublist_NoDup; [done|]. by apply fmap_sublist.
    + eapply sublist_NoDup; [done|]. by apply fmap_sublist.
Qed.

(** X13: referential integrity.  [unassign] keeps it; [assign] keeps it when
    every candidate key it resolved has an attribute row, which the validation
    does not check. *)
Theorem mutations_and_referential_integrity db page_type_id attribute_ids :
  referential_integrity db →
  referential_integrity
    (PageAttributeUnassign.perform_mutation db page_type_id attribute_ids).2
  ∧ ((∀ node_type attr_pks,
        resolve_global_ids_to_primary_keys attribute_ids
          = Return (node_type, attr_pks) →
        ∀ a, a ∈ attr_pks → a ∈ models.pk <$> attribute_rows db) →
     referential_integrity
       (PageAttributeAssign.perform_mutation db page_type_id attribute_ids).2).
Proof.
  intros Hintegrity. split.
  - unfold PageAttributeUnassign.perform_mutation.
    destruct (get_node_or_error (page_type_rows db) page_type_id); [|done].
    destruct (resolve_global_ids_to_primary_keys attribute_ids)
      as [[node_type attr_pks]|]; [|done].
    simpl. intros link Hlink. apply elem_of_difference in Hlink as [Hlink _].
    by apply Hintegrity.
  - intros Hrows. unfold PageAttributeAssign.perform_mutation.
    destruct (get_node_or_error (page_type_rows db) page_type_id)
      as [page_type|]; [|done].
    destruct (resolve_global_ids_to_primary_keys attribute_ids)
      as [[node_type attr_pks]|]; [|done].
    case_bool_decide; [done|].
    unfold page_attributes_add. case_bool_decide; [|done].
    simpl. intros [p a] Hlink. simpl in *.
    apply elem_of_union in Hlink as [Hlink|Hlink];
      [by apply (Hintegrity (p, a))|].
    apply elem_of_links_of in Hlink as [_ Ha]. by eapply Hrows.
Qed.
End further_properties.

(** ** The further properties on the example stores *)

Section further_examples.
#[local] Existing Instance relay.collaborators.
Import fixtures.

Ltac run := vm_compute; reflexivity.
Ltac decide_it := apply (bool_decide_unpack _); vm_compute; exact I.
Ltac check_each :=
  refine (proj1 (Forall_forall _ _) _);
  apply (bool_decide_unpack _); vm_compute; exact I.

(** [assign(P, ["garbage"])]: the identifier does not resolve. *)
Lemma failed_mutation_keeps_store_witness :
  (PageAttributeAssign.perform_mutation db P_id ["garbage"]).2 = db.
Proof.
  apply (failed_mutation_keeps_store db P_id ["garbage"]
           (GraphQLError
              "Could not resolve to a node with the global id list.")
           PageAttributeAssign.perform_mutation).
  - by left.
  - run.
Defined.

(** [assign(P, [A2])] returns. *)
Lemma assign_returns_only_valid_witness :
  ∃ node_type attr_pks,
    get_node_or_error (page_type_rows db) P_id = Return P
    ∧ resolve_global_ids_to_primary_keys [attribute_id 2]
      = Return (node_type, attr_pks)
    ∧ (∀ attr, attr ∈ attribute_rows db → models.pk attr ∈ attr_pks →
         models.type attr = AttributeType.PAGE_TYPE
         ∧ models.pk attr ∉ page_attributes P db)
    ∧ (PageAttributeAssign.perform_mutation db P_id [attribute_id 2]).2
      = insert_links P attr_pks db
    ∧ (∀ a, a ∈ attr_pks →
         a ∈ page_attributes P
               (PageAttributeAssign.perform_mutation
                  db P_id [attribute_id 2]).2)
    ∧ (∀ a, a ∈ attr_pks → a ∈ models.pk <$> attribute_rows db).
Proof.
  apply (assign_returns_only_valid db P_id [attribute_id 2] P). run.
Defined.

(** [assign(P, [A3, A1])] raises both errors. *)
Lemma assign_report_shape_witness :
  (ValidationErrorDict
     {[ "attribute_ids" :=
          [PageAttributeAssign.invalid_error ["QXR0cmlidXRlOjM="];
           PageAttributeAssign.assigned_error ["QXR0cmlidXRlOjE="]] ]}
   = IntegrityError
   ∧ PageAttributeAssign.clean_attributes db ∅ P [3; 1] = ∅
   ∧ ∃ missing, missing ∈ [3; 1]
                ∧ missing ∉ models.pk <$> attribute_rows db)
  ∨ (∃ errors reported,
    ValidationErrorDict
      {[ "attribute_ids" :=
           [PageAttributeAssign.invalid_error ["QXR0cmlidXRlOjM="];
            PageAttributeAssign.assigned_error ["QXR0cmlidXRlOjE="]] ]}
    = ValidationErrorDict errors
    ∧ dom errors = {[ "attribute_ids" ]}
    ∧ errors !! "attribute_ids" = Some reported
    ∧ code <$> reported
      ∈ [ [PageErrorCode.INVALID];
          [PageErrorCode.ATTRIBUTE_ALREADY_ASSIGNED];
          [PageErrorCode.INVALID; PageErrorCode.ATTRIBUTE_ALREADY_ASSIGNED] ]
    ∧ Forall
        (λ error,
           ∃ ids, params error = {[ "attributes" := ids ]} ∧ ids ≠ []
                  ∧ ∀ global_id, global_id ∈ ids →
                      ∃ a, a ∈ [3; 1]
                           ∧ global_id = to_global_id "Attribute" a)
        reported).
Proof.
  apply (assign_report_shape db P_id [attribute_id 3; attribute_id 1]
           P (Some "Attribute") [3; 1]).
  - run.
  - run.
  - run.
Defined.

(** [[A2, A9, A2]] and [[A9, A2]] are the same candidates. *)
Lemma candidates_count_as_a_set_witness :
  PageAttributeAssign.perform_mutation db P_id
    [attribute_id 2; attribute_id 9; attribute_id 2]
    = PageAttributeAssign.perform_mutation db P_id
        [attribute_id 9; attribute_id 2]
  ∧ PageAttributeUnassign.perform_mutation db P_id
      [attribute_id 2; attribute_id 9; attribute_id 2]
    = PageAttributeUnassign.perform_mutation db P_id
        [attribute_id 9; attribute_id 2].
Proof.
  apply (candidates_count_as_a_set db P_id _ _
           (Some "Attribute") (Some "Attribute") [2; 9; 2] [9; 2]).
  - run.
  - run.
  - intros a. rewrite !elem_of_cons, !elem_of_nil. tauto.
Defined.

(** The example store keeps the kind invariant through [assign(P, [A9])]. *)
Lemma mutations_keep_kind_invariant_witness :
  kind_invariant
    (PageAttributeAssign.perform_mutation db P_id [attribute_id 9]).2.
Proof.
  apply (mutations_keep_kind_invariant db P_id [attribute_id 9]
           PageAttributeAssign.perform_mutation).
  - by left.
  - unfold kind_invariant. decide_it.
Defined.

(** [assign(P, [A2])] twice. *)
Lemma assign_twice_rejected_witness :
  let db1 :=
    (PageAttributeAssign.perform_mutation db P_id [attribute_id 2]).2 in
  PageAttributeAssign.perform_mutation db1 P_id [attribute_id 2]
  = (Raise (ValidationErrorDict
       {[ "attribute_ids" :=
            [ {| message :=
                   "Some of the attributes have been already assigned to this page type.";
                 code := PageErrorCode.ATTRIBUTE_ALREADY_ASSIGNED;
                 params :=
                   {[ "attributes" :=
                        (λ attr, to_global_id "Attribute" (models.pk attr))
                          <$> filter (λ attr, models.pk attr ∈ [2])
                                     (attribute_rows db) ]} |} ] ]}),
     db1).
Proof.
  apply (assign_twice_rejected db P_id [attribute_id 2]
           P (Some "Attribute") [2]).
  - run.
  - run.
  - exists A2. split; decide_it.
Defined.

(** [unassign(P, [A1, A9])] and then [assign(P, [A1, A9])]. *)
Lemma unassign_then_assign_witness :
  let db1 :=
    (PageAttributeUnassign.perform_mutation db P_id
       [attribute_id 1; attribute_id 9]).2 in
  ∃ db2,
    PageAttributeAssign.perform_mutation db1 P_id
      [attribute_id 1; attribute_id 9]
      = (Return P, db2)
    ∧ page_attribute_links db2 = page_attribute_links db ∪ links_of P [1; 9]
    ∧ page_attributes P db2 = page_attributes P db ∪ list_to_set [1; 9].
Proof.
  apply (unassign_then_assign db P_id [attribute_id 1; attribute_id 9]
           P (Some "Attribute") [1; 9]).
  - run.
  - run.
  - check_each.
  - check_each.
Defined.

(** [assign(P, [A2, A9, A2])] on the example store, whose links all point to
    rows, and then [unassign]. *)
Lemma assign_then_unassign_with_integrity_witness :
  let db1 :=
    (PageAttributeAssign.perform_mutation db P_id
       [attribute_id 2; attribute_id 9; attribute_id 2]).2 in
  (∀ a, a ∈ [2; 9; 2] → a ∉ page_attributes P db)
  ∧ size (page_attributes P db1)
    = (size (page_attributes P db) + length (remove_dups [2; 9; 2]))%nat
  ∧ PageAttributeUnassign.perform_mutation db1 P_id
      [attribute_id 2; attribute_id 9; attribute_id 2]
    = (Return P, db).
Proof.
  apply (assign_then_unassign_with_integrity db P_id
           [attribute_id 2; attribute_id 9; attribute_id 2]
           P (Some "Attribute") [2; 9; 2]).
  - unfold referential_integrity. decide_it.
  - run.
  - run.
Defined.

(** [assign(P, [A2])], [assign(P, [A9])] and the other way round. *)
Lemma assign_order_irrelevant_witness :
  (PageAttributeAssign.perform_mutation db P_id [attribute_id 9]).1 = Return P
  ∧ (PageAttributeAssign.perform_mutation
       (PageAttributeAssign.perform_mutation db P_id [attribute_id 9]).2
       P_id [attribute_id 2]).1 = Return P
  ∧ (PageAttributeAssign.perform_mutation
       (PageAttributeAssign.perform_mutation db P_id [attribute_id 9]).2
       P_id [attribute_id 2]).2
    = (PageAttributeAssign.perform_mutation
         (PageAttributeAssign.perform_mutation db P_id [attribute_id 2]).2
         P_id [attribute_id 9]).2.
Proof.
  apply (assign_order_irrelevant db P_id [attribute_id 2] [attribute_id 9] P).
  - run.
  - run.
Defined.

(** [unassign(P, [A1])], [unassign(P, [A9, A1])] and the other way round. *)
Lemma unassign_order_irrelevant_witness :
  let one_two :=
    PageAttributeUnassign.perform_mutation
      (PageAttributeUnassign.perform_mutation db P_id [attribute_id 1]).2
      P_id [attribute_id 9; attribute_id 1] in
  let two_one :=
    PageAttributeUnassign.perform_mutation
      (PageAttributeUnassign.perform_mutation
         db P_id [attribute_id 9; attribute_id 1]).2
      P_id [attribute_id 1] in
  one_two = two_one
  ∧ one_two.1 = Return P
  ∧ page_attributes P one_two.2
    = page_attributes P db ∖ (list_to_set [1] ∪ list_to_set [9; 1]).
Proof.
  apply (unassign_order_irrelevant db P_id
           [attribute_id 1] [attribute_id 9; attribute_id 1] P
           (Some "Attribute") (Some "Attribute") [1] [9; 1]).
  - run.
  - run.
  - run.
Defined.

(** The links of the example store all point to rows; [unassign(P, [A2])]
    and [assign(P, [A2])] keep that. *)
Lemma mutations_and_referential_integrity_witness :
  referential_integrity
    (PageAttributeUnassign.perform_mutation db P_id [attribute_id 2]).2
  ∧ referential_integrity
      (PageAttributeAssign.perform_mutation db P_id [attribute_id 2]).2.
Proof.
  destruct (mutations_and_referential_integrity db P_id [attribute_id 2])
    as [Hunassign Hassign].
  - unfold referential_integrity. decide_it.
  - split; [exact Hunassign|]. apply Hassign.
    intros node_type attr_pks Hresolved. vm_compute in Hresolved.
    injection Hresolved as <- <-. check_each.
Defined.
End further_examples.
